(** * Miro administration scripts: model and verification

    A shallow embedding of the three scripts of the repository

      - [miro_license_monitor.py]  (module [LicenseMonitor]),
      - [miro_boards_export.py]    (module [BoardsExport]),
      - [miro_members_export.py]   (module [MembersExport]),

    together with the properties their specification states about them.

    The scripts are effectful Python: they talk to an HTTP server, read the
    process environment, a token file and the terminal, print, and write a
    CSV file; any step may raise.  They are modelled in a state-and-exception
    monad over an explicit [world]; the two unbounded [while] loops take a
    fuel argument that bounds the number of iterations. *)

From Stdlib Require Import ZArith List String Ascii Bool Lia DecimalString.
Import ListNotations.

#[local] Set Warnings "-register-all".

Open Scope string_scope.
Open Scope list_scope.
Open Scope Z_scope.

(* ================================================================= *)
(** ** Python values *)

(** The values the scripts handle are the ones [response.json()] builds:
    [None], booleans, integers, strings, lists and dicts.  A dict is kept as
    its items in insertion order; [dict_get] returns the first binding of a
    key.  JSON numbers with a fraction are outside the model. *)
Inductive pyval : Type :=
| PyNone
| PyBool (b : bool)
| PyInt (n : Z)
| PyStr (s : string)
| PyList (items : list pyval)
| PyDict (fields : list (string * pyval)).

(** Truth value of an object, as [if x] and [not x] test it. *)
Definition truthy (v : pyval) : bool :=
  match v with
  | PyNone => false
  | PyBool b => b
  | PyInt n => negb (n =? 0)
  | PyStr s => negb (s =? "")%string
  | PyList items => match items with [] => false | _ :: _ => true end
  | PyDict fields => match fields with [] => false | _ :: _ => true end
  end.

(** [not s] for a string held as such ([os.getenv] results, file contents). *)
Definition str_truthy (s : string) : bool := negb (s =? "")%string.

Fixpoint dict_get (fields : list (string * pyval)) (key : string) : option pyval :=
  match fields with
  | [] => None
  | (k, v) :: rest => if (k =? key)%string then Some v else dict_get rest key
  end.

(** [d.get(key, default)] on a dict. *)
Definition dict_get_default (fields : list (string * pyval)) (key : string)
    (default : pyval) : pyval :=
  match dict_get fields key with
  | Some v => v
  | None => default
  end.

(** [x == "literal"]: only the string itself compares equal to a string. *)
Definition eq_str (v : pyval) (lit : string) : bool :=
  match v with
  | PyStr s => (s =? lit)%string
  | _ => false
  end.

(** Decimal text of an integer, as [str] and f-strings print it. *)
Definition str_of_int (n : Z) : string := NilZero.string_of_int (Z.to_int n).

(** The pieces of an f-string, concatenated. *)
Definition fstr (parts : list string) : string := String.concat "" parts.

(** The newline character of the message literals. *)
Definition nl : string := String (ascii_of_nat 10) EmptyString.

(** [str.strip()]: whitespace removed at both ends.  The ASCII white space
    of [str.isspace] is covered (tab .. carriage return, the four separator
    controls and the space). *)
Definition is_space (c : ascii) : bool :=
  let n := nat_of_ascii c in
  ((9 <=? n)%nat && (n <=? 13)%nat) || ((28 <=? n)%nat && (n <=? 32)%nat).

Fixpoint lstrip (s : string) : string :=
  match s with
  | EmptyString => EmptyString
  | String c rest => if is_space c then lstrip rest else s
  end.

Fixpoint rstrip (s : string) : string :=
  match s with
  | EmptyString => EmptyString
  | String c rest =>
      match rstrip rest with
      | EmptyString => if is_space c then EmptyString else String c EmptyString
      | kept => String c kept
      end
  end.

Definition strip (s : string) : string := rstrip (lstrip s).

(* ================================================================= *)
(** ** The world outside the scripts *)

(** A request as handed to [requests.get] / [requests.post].  The URL of a
    GET is a Python object: the boards exporter passes whatever the server
    put under ["next"]. *)
Inductive request : Type :=
| Get (url : pyval) (headers : list (string * string)) (params : list (string * pyval))
| Post (url : string) (payload : pyval).

(** What the scripts read of a response: [status_code], [text], and the
    result of [response.json()] ([None] when parsing raises). *)
Record response : Type := mkResponse {
  status_code : Z;
  text : string;
  json : option pyval
}.

Inductive reply : Type :=
| Responded (r : response)
| TransportError.   (* the call itself raises (no connection, bad URL) *)

(** A path given to [os.path.isfile] and [open]. *)
Inductive file_status : Type :=
| NotAFile
| Unreadable (why : string)
| Content (s : string).

(** The surroundings a run cannot change.  The server answers a request
    knowing every request sent before it (oldest first).  [py_repr] is the
    interpreter's built-in text of a list or a dict. *)
Record env : Type := mkEnv {
  server : list request -> request -> reply;
  environ : string -> option string;
  filesystem : string -> file_status;
  py_repr : pyval -> string
}.

(** A CSV file under construction: the rows written so far, each a list of
    field texts (before the dialect's quoting). *)
Definition csv_rows : Type := list (list string).

(** What a run changes: the requests sent and the lines printed (oldest
    first), the terminal input still unread, and the files written. *)
Record world : Type := mkWorld {
  sent : list request;
  stdout : list string;
  stdin : list string;
  written : list (string * csv_rows)
}.

Inductive exn : Type :=
| HTTPError (status : Z)
| JSONDecodeError            (* a ValueError *)
| ValueError (msg : string)
| AttributeError
| TypeError
| EOFError
| RequestException.

(** [except ValueError] *)
Definition is_ValueError (e : exn) : bool :=
  match e with
  | JSONDecodeError | ValueError _ => true
  | _ => false
  end.

(* ================================================================= *)
(** ** The monad *)

Inductive outcome (A : Type) : Type :=
| Returned (a : A) (w : world)
| Raised (e : exn) (w : world)
| OutOfFuel (w : world).

Arguments Returned {A} a w.
Arguments Raised {A} e w.
Arguments OutOfFuel {A} w.

Definition M (A : Type) : Type := world -> outcome A.

Definition ret {A} (a : A) : M A := fun w => Returned a w.

Definition bind {A B} (c : M A) (k : A -> M B) : M B :=
  fun w =>
    match c w with
    | Returned a w' => k a w'
    | Raised e w' => Raised e w'
    | OutOfFuel w' => OutOfFuel w'
    end.

Definition raise {A} (e : exn) : M A := fun w => Raised e w.

Definition out_of_fuel {A} : M A := fun w => OutOfFuel w.

(** [try: c  except <handles>: handler] *)
Definition try_except {A} (c : M A) (handles : exn -> bool) (handler : exn -> M A) : M A :=
  fun w =>
    match c w with
    | Raised e w' => if handles e then handler e w' else Raised e w'
    | other => other
    end.

Declare Scope monad_scope.
Delimit Scope monad_scope with monad.
Notation "x <- c ;; k" := (bind c (fun x => k))
  (at level 61, c at next level, right associativity) : monad_scope.
Notation "c ;; k" := (bind c (fun _ => k))
  (at level 61, right associativity) : monad_scope.
Open Scope monad_scope.

(* ----------------------------------------------------------------- *)
(** *** Primitive effects *)

Definition print (line : string) : M unit :=
  fun w => Returned tt (mkWorld (sent w) (stdout w ++ [line]) (stdin w) (written w)).

(** [input(prompt)]: shows the prompt, reads one line. *)
Definition input (prompt : string) : M string :=
  fun w =>
    match stdin w with
    | [] => Raised EOFError (mkWorld (sent w) (stdout w ++ [prompt]) [] (written w))
    | line :: rest =>
        Returned line (mkWorld (sent w) (stdout w ++ [prompt]) rest (written w))
    end.

(** One HTTP exchange: the request is recorded, the server's answer is the
    response object, a transport failure raises. *)
Definition http (E : env) (req : request) : M response :=
  fun w =>
    let w' := mkWorld (sent w ++ [req]) (stdout w) (stdin w) (written w) in
    match server E (sent w) req with
    | Responded r => Returned r w'
    | TransportError => Raised RequestException w'
    end.

Definition requests_get (E : env) (url : pyval) (headers : list (string * string))
    (params : list (string * pyval)) : M response :=
  http E (Get url headers params).

Definition requests_post (E : env) (url : string) (payload : pyval) : M response :=
  http E (Post url payload).

(** [response.raise_for_status()]: raises on 4xx and 5xx. *)
Definition raise_for_status (r : response) : M unit :=
  if (400 <=? status_code r) && (status_code r <? 600)
  then raise (HTTPError (status_code r))
  else ret tt.

(** [response.json()] *)
Definition response_json (r : response) : M pyval :=
  match json r with
  | Some v => ret v
  | None => raise JSONDecodeError
  end.

(** [x.get(key, default)] on an arbitrary object: only a dict has [get]. *)
Definition py_get (x : pyval) (key : string) (default : pyval) : M pyval :=
  match x with
  | PyDict fields => ret (dict_get_default fields key default)
  | _ => raise AttributeError
  end.

Fixpoint chars (s : string) : list pyval :=
  match s with
  | EmptyString => []
  | String c rest => PyStr (String c EmptyString) :: chars rest
  end.

(** [acc.extend(x)]: appends the elements [x] iterates over (the items of
    a list, the keys of a dict, the characters of a string). *)
Definition list_extend (acc : list pyval) (x : pyval) : M (list pyval) :=
  match x with
  | PyList items => ret (acc ++ items)
  | PyDict fields => ret (acc ++ map (fun kv => PyStr (fst kv)) fields)
  | PyStr s => ret (acc ++ chars s)
  | _ => raise TypeError
  end.

(** Iterating over an object, as a [for] clause does. *)
Definition py_iter (x : pyval) : M (list pyval) := list_extend [] x.

(** [str(x)] *)
Definition py_str (E : env) (x : pyval) : string :=
  match x with
  | PyNone => "None"
  | PyBool true => "True"
  | PyBool false => "False"
  | PyInt n => str_of_int n
  | PyStr s => s
  | PyList _ | PyDict _ => py_repr E x
  end.

(** The text the [csv] module writes for a field: nothing for [None], the
    string itself, [str] of anything else. *)
Definition csv_field (E : env) (x : pyval) : string :=
  match x with
  | PyNone => ""
  | PyStr s => s
  | _ => py_str E x
  end.

(** Files, by name. *)
Definition file_rows (name : string) (files : list (string * csv_rows)) : csv_rows :=
  match find (fun f => (fst f =? name)%string) files with
  | Some f => snd f
  | None => []
  end.

Definition file_set (name : string) (rows : csv_rows) (files : list (string * csv_rows))
    : list (string * csv_rows) :=
  (name, rows) :: filter (fun f => negb (fst f =? name)%string) files.

(** [open(name, mode="w")]: the file exists and is empty. *)
Definition open_w (name : string) : M unit :=
  fun w => Returned tt (mkWorld (sent w) (stdout w) (stdin w) (file_set name [] (written w))).

(** [csv.writer(file).writerow(row)] *)
Definition writerow (E : env) (name : string) (row : list pyval) : M unit :=
  fun w =>
    let rows := file_rows name (written w) ++ [map (csv_field E) row] in
    Returned tt (mkWorld (sent w) (stdout w) (stdin w) (file_set name rows (written w))).

(** [csv.DictWriter(file, fieldnames)]: a row dict is laid out in the order
    of [fieldnames] (a missing key gives the empty string); a key outside
    [fieldnames] raises [ValueError]. *)
Definition dict_to_list (fieldnames : list string) (rowdict : list (string * pyval))
    : M (list pyval) :=
  if existsb (fun kv => negb (existsb (String.eqb (fst kv)) fieldnames)) rowdict
  then raise (ValueError "dict contains fields not in fieldnames")
  else ret (map (fun key => dict_get_default rowdict key (PyStr "")) fieldnames).

Definition dict_writerow (E : env) (name : string) (fieldnames : list string)
    (rowdict : list (string * pyval)) : M unit :=
  row <- dict_to_list fieldnames rowdict ;;
  writerow E name row.

Definition dict_writeheader (E : env) (name : string) (fieldnames : list string) : M unit :=
  dict_writerow E name fieldnames (map (fun f => (f, PyStr f)) fieldnames).

(** [os.getenv(name)] gives [None] or a string; [not x] holds for both
    [None] and the empty string, and an f-string prints [None] by name. *)
Definition env_truthy (x : option string) : bool :=
  match x with
  | Some s => str_truthy s
  | None => false
  end.

Definition env_text (x : option string) : string :=
  match x with
  | Some s => s
  | None => "None"
  end.

(* ================================================================= *)
(** ** miro_license_monitor.py *)

Module LicenseMonitor.
Section Script.

Variable E : env.

(** The body of [while True:] in [fetch_members], with the loop state
    ([members], [cursor]) as arguments; [fuel] bounds the iterations. *)
Fixpoint fetch_members_loop (fuel : nat) (url : string) (headers : list (string * string))
    (members : list pyval) (cursor : pyval) : M (list pyval) :=
  match fuel with
  | O => out_of_fuel
  | S fuel' =>
      let params := if truthy cursor then [("cursor", cursor)] else [] in
      response <- requests_get E (PyStr url) headers params ;;
      raise_for_status response ;;
      data <- response_json response ;;
      page <- py_get data "data" (PyList []) ;;
      members <- list_extend members page ;;
      cursor <- py_get data "cursor" PyNone ;;
      if negb (truthy cursor) then ret members
      else fetch_members_loop fuel' url headers members cursor
  end.

Definition members_url (org_id : string) : string :=
  fstr ["https://api.miro.com/v2/orgs/"; org_id; "/members"].

Definition auth_headers (api_token : string) : list (string * string) :=
  [("Authorization", fstr ["Bearer "; api_token]); ("Accept", "application/json")].

Definition fetch_members (fuel : nat) (api_token org_id : string) : M (list pyval) :=
  let url := members_url org_id in
  let headers := auth_headers api_token in
  fetch_members_loop fuel url headers [] PyNone.

Definition post_to_slack (webhook_url message : string) : M unit :=
  let payload := PyDict [("text", PyStr message)] in
  response <- requests_post E webhook_url payload ;;
  raise_for_status response.

(** [[member for member in members
      if member.get("active") and member.get("license") == "full"]] *)
Fixpoint licensed_users (members : list pyval) : M (list pyval) :=
  match members with
  | [] => ret []
  | member :: rest =>
      active <- py_get member "active" PyNone ;;
      keep <- (if truthy active
               then (license <- py_get member "license" PyNone ;;
                     ret (eq_str license "full"))
               else ret false) ;;
      kept <- licensed_users rest ;;
      ret (if keep then member :: kept else kept)
  end.

(** The message chosen by lines 87-105 of [main]. *)
Definition alert_message (used_licenses total_licenses : Z) : string :=
  let available_licenses := total_licenses - used_licenses in
  if used_licenses >? total_licenses then
    fstr [":rotating_light::miro: *Miro License Alert* :miro::rotating_light:"; nl;
          "Used Licenses: "; str_of_int used_licenses; nl;
          "Total Licenses: "; str_of_int total_licenses; nl;
          "Overage: "; str_of_int (used_licenses - total_licenses); nl;
          "*Immediate action required to resolve the overage.*"]
  else
    fstr [":miro: *Miro License Report* :miro:"; nl;
          "Used Licenses: "; str_of_int used_licenses; nl;
          "Total Licenses: "; str_of_int total_licenses; nl;
          "Available Licenses: "; str_of_int available_licenses; nl;
          "*All licenses are within the allocated limit.*"].

Definition total_licenses : Z := 600.

Definition main (fuel : nat) : M unit :=
  let api_token := environ E "MIRO_API_TOKEN" in
  let org_id := environ E "MIRO_ORG_ID" in
  let slack_webhook_url := environ E "SLACK_WEBHOOK_URL" in
  if negb (env_truthy api_token) || negb (env_truthy org_id)
     || negb (env_truthy slack_webhook_url)
  then raise (ValueError
    "Environment variables MIRO_API_TOKEN, MIRO_ORG_ID, and SLACK_WEBHOOK_URL are required.")
  else
    members <- fetch_members fuel (env_text api_token) (env_text org_id) ;;
    licensed <- licensed_users members ;;
    let used_licenses := Z.of_nat (List.length licensed) in
    post_to_slack (env_text slack_webhook_url) (alert_message used_licenses total_licenses).

End Script.
End LicenseMonitor.

(* ================================================================= *)
(** ** miro_boards_export.py *)

Module BoardsExport.
Section Script.

Variable E : env.

(** [while url:] in [fetch_boards]; the loop state is ([boards], [url]). *)
Fixpoint fetch_boards_loop (fuel : nat) (headers : list (string * string))
    (params : list (string * pyval)) (boards : list pyval) (url : pyval)
    : M (list pyval) :=
  match fuel with
  | O => out_of_fuel
  | S fuel' =>
      if negb (truthy url) then ret boards
      else
        response <- requests_get E url headers params ;;
        if negb (status_code response =? 200) then
          print (fstr ["Error: "; str_of_int (status_code response); ", "; text response]) ;;
          ret boards
        else
          parsed <- try_except
                      (data <- response_json response ;; ret (Some data))
                      is_ValueError
                      (fun _ => print "Error: Failed to parse JSON response." ;; ret None) ;;
          match parsed with
          | None => ret boards
          | Some data =>
              page <- py_get data "data" (PyList []) ;;
              boards <- list_extend boards page ;;
              links <- py_get data "links" (PyDict []) ;;
              next_link <- py_get links "next" PyNone ;;
              if truthy next_link
              then fetch_boards_loop fuel' headers params boards next_link
              else ret boards
          end
  end.

Definition boards_url : string := "https://api.miro.com/v2/boards".

Definition auth_headers (api_token : string) : list (string * string) :=
  [("Authorization", fstr ["Bearer "; api_token])].

Definition limit_params : list (string * pyval) := [("limit", PyInt 50)].

Definition fetch_boards (fuel : nat) (api_token : string) : M (list pyval) :=
  fetch_boards_loop fuel (auth_headers api_token) limit_params [] (PyStr boards_url).

Definition header : list pyval :=
  [PyStr "Board ID"; PyStr "Name"; PyStr "Owner"; PyStr "Created At";
   PyStr "Modified At"; PyStr "Link"].

(** The list built for one board inside [writer.writerow([...])]. *)
Definition board_row (board : pyval) : M (list pyval) :=
  id <- py_get board "id" PyNone ;;
  name <- py_get board "name" PyNone ;;
  owner <- py_get board "owner" (PyDict []) ;;
  owner_name <- py_get owner "name" PyNone ;;
  createdAt <- py_get board "createdAt" PyNone ;;
  modifiedAt <- py_get board "modifiedAt" PyNone ;;
  viewLink <- py_get board "viewLink" PyNone ;;
  ret [id; name; owner_name; createdAt; modifiedAt; viewLink].

Fixpoint write_boards (output_file : string) (boards : list pyval) : M unit :=
  match boards with
  | [] => ret tt
  | board :: rest =>
      row <- board_row board ;;
      writerow E output_file row ;;
      write_boards output_file rest
  end.

Definition export_to_csv (boards : list pyval) (output_file : string) : M unit :=
  open_w output_file ;;
  writerow E output_file header ;;
  write_boards output_file boards.

Definition main (fuel : nat) : M unit :=
  print (fstr [nl; "--- Miro Boards Export Script ---"]) ;;
  line <- input "Enter the path to the text file containing your Miro API token: " ;;
  let token_file_path := strip line in
  match filesystem E token_file_path with
  | NotAFile => print "Error: File not found. Exiting..."
  | Unreadable why =>
      print (fstr ["Error: Unable to read token file ("; why; "). Exiting..."])
  | Content s =>
      let api_token := strip s in
      if negb (str_truthy api_token) then print "Error: API token is required. Exiting..."
      else
        print "Fetching boards from Miro..." ;;
        boards <- fetch_boards fuel api_token ;;
        if negb (truthy (PyList boards)) then print "No boards found or an error occurred."
        else
          let output_file := "miro_boards_export.csv" in
          print (fstr ["Exporting boards to "; output_file; "..."]) ;;
          export_to_csv boards output_file ;;
          print "Export completed."
  end.

End Script.
End BoardsExport.

(* ================================================================= *)
(** ** miro_members_export.py *)

Module MembersExport.
Section Script.

Variable E : env.

(** [while True:] in [fetch_members]; the loop state is ([members],
    [cursor]).  [url] is the template already formatted with the org id. *)
Fixpoint fetch_members_loop (fuel : nat) (url : string) (headers : list (string * string))
    (members : list pyval) (cursor : pyval) : M (list pyval) :=
  match fuel with
  | O => out_of_fuel
  | S fuel' =>
      let params := if truthy cursor then [("cursor", cursor)] else [] in
      response <- requests_get E (PyStr url) headers params ;;
      if negb (status_code response =? 200) then
        print (fstr ["Error: Unable to fetch data (Status Code ";
                     str_of_int (status_code response); "): "; text response]) ;;
        ret members
      else
        data <- response_json response ;;
        page <- py_get data "data" (PyList []) ;;
        members <- list_extend members page ;;
        cursor <- py_get data "cursor" PyNone ;;
        if negb (truthy cursor) then ret members
        else
          print "Fetching next page..." ;;
          fetch_members_loop fuel' url headers members cursor
  end.

(** ["https://api.miro.com/v2/orgs/{org_id}/members".format(org_id=org_id)] *)
Definition url_format (org_id : string) : string :=
  fstr ["https://api.miro.com/v2/orgs/"; org_id; "/members"].

Definition auth_headers (api_token : string) : list (string * string) :=
  [("Authorization", fstr ["Bearer "; api_token]); ("Accept", "application/json")].

Definition fetch_members (fuel : nat) (api_token : string) : M (list pyval) :=
  line <- input "Enter your Miro Organization ID: " ;;
  let org_id := strip line in
  let headers := auth_headers api_token in
  print "Fetching Miro organization members..." ;;
  members <- fetch_members_loop fuel (url_format org_id) headers [] PyNone ;;
  print (fstr ["Fetched "; str_of_int (Z.of_nat (List.length members)); " members."]) ;;
  ret members.

Definition fieldnames : list string :=
  ["id"; "active"; "adminRoles"; "email"; "lastActivityAt"; "license";
   "licenseAssignedAt"; "role"; "type"].

(** The dict built for one member inside [writer.writerow({...})]. *)
Definition member_row (member : pyval) : M (list (string * pyval)) :=
  admin_roles <- py_get member "adminRoles" (PyList []) ;;
  roles <- py_iter admin_roles ;;
  let admin_roles_str := String.concat ", " (map (py_str E) roles) in
  id <- py_get member "id" PyNone ;;
  active <- py_get member "active" PyNone ;;
  email <- py_get member "email" PyNone ;;
  lastActivityAt <- py_get member "lastActivityAt" (PyStr "N/A") ;;
  license <- py_get member "license" PyNone ;;
  licenseAssignedAt <- py_get member "licenseAssignedAt" (PyStr "N/A") ;;
  role <- py_get member "role" PyNone ;;
  type <- py_get member "type" PyNone ;;
  ret [("id", id); ("active", active); ("adminRoles", PyStr admin_roles_str);
       ("email", email); ("lastActivityAt", lastActivityAt); ("license", license);
       ("licenseAssignedAt", licenseAssignedAt); ("role", role); ("type", type)].

Fixpoint write_members (filename : string) (members : list pyval) : M unit :=
  match members with
  | [] => ret tt
  | member :: rest =>
      rowdict <- member_row member ;;
      dict_writerow E filename fieldnames rowdict ;;
      write_members filename rest
  end.

Definition export_to_csv (members : list pyval) (filename : string) : M unit :=
  print (fstr ["Exporting data to "; filename; "..."]) ;;
  open_w filename ;;
  dict_writeheader E filename fieldnames ;;
  write_members filename members ;;
  print (fstr ["Data successfully exported to "; filename; "."]).

Definition main (fuel : nat) : M unit :=
  print (fstr [nl; "--- Miro Organization Members Export Script ---"]) ;;
  line <- input "Enter the path to the text file containing your Miro API token: " ;;
  let token_file_path := strip line in
  match filesystem E token_file_path with
  | NotAFile => print "Error: File not found. Exiting..."
  | Unreadable why =>
      print (fstr ["Error: Unable to read token file ("; why; "). Exiting..."])
  | Content s =>
      let api_token := strip s in
      if negb (str_truthy api_token) then print "Error: API token is required. Exiting..."
      else
        members <- fetch_members fuel api_token ;;
        if truthy (PyList members) then export_to_csv members "miro_users_export.csv"
        else print "No members data fetched."
  end.

End Script.
End MembersExport.

(* ================================================================= *)
(** ** The specification's vocabulary *)

(** *** Alert decision (spec 4.4) *)

Inductive AlertMessage : Type :=
| WithinLimit (used total available : Z)
| Overage (used total excess : Z).

(** [decide] as the specification words it. *)
Definition decide (used total : Z) : AlertMessage :=
  if used >? total then Overage used total (used - total)
  else WithinLimit used total (total - used).

(** The text the monitor posts for each variant. *)
Definition render (m : AlertMessage) : string :=
  match m with
  | Overage used total excess =>
      fstr [":rotating_light::miro: *Miro License Alert* :miro::rotating_light:"; nl;
            "Used Licenses: "; str_of_int used; nl;
            "Total Licenses: "; str_of_int total; nl;
            "Overage: "; str_of_int excess; nl;
            "*Immediate action required to resolve the overage.*"]
  | WithinLimit used total available =>
      fstr [":miro: *Miro License Report* :miro:"; nl;
            "Used Licenses: "; str_of_int used; nl;
            "Total Licenses: "; str_of_int total; nl;
            "Available Licenses: "; str_of_int available; nl;
            "*All licenses are within the allocated limit.*"]
  end.

(** *** Aggregation (spec 4.3) *)

(** The predicate of the specification: [active == true] and
    [license == "full"]. *)
Definition is_licensed (member : pyval) : bool :=
  match member with
  | PyDict fields =>
      match dict_get fields "active" with
      | Some (PyBool true) =>
          match dict_get fields "license" with
          | Some license => eq_str license "full"
          | None => false
          end
      | _ => false
      end
  | _ => false
  end.

(** A member record of the data model: a mapping whose [active] field,
    when it has one, is a boolean. *)
Definition is_member_record (member : pyval) : bool :=
  match member with
  | PyDict fields =>
      match dict_get fields "active" with
      | None | Some (PyBool _) => true
      | Some _ => false
      end
  | _ => false
  end.

(** *** Tabular export (spec 6) *)

(** A field of a record, [None] when the record has no such key. *)
Definition field (fields : list (string * pyval)) (key : string) : pyval :=
  dict_get_default fields key PyNone.

(** A field with a default for the absent key. *)
Definition field_or (fields : list (string * pyval)) (key : string) (default : string)
    : pyval :=
  match dict_get fields key with
  | Some v => v
  | None => PyStr default
  end.

(** The owner's name, [None] when the board has no owner. *)
Definition owner_name (fields : list (string * pyval)) : pyval :=
  match dict_get fields "owner" with
  | Some (PyDict owner) => field owner "name"
  | _ => PyNone
  end.

(** A board record of the data model: a mapping whose [owner], when it
    has one, is a nested record. *)
Definition is_board_record (board : pyval) : bool :=
  match board with
  | PyDict fields =>
      match dict_get fields "owner" with
      | None | Some (PyDict _) => true
      | Some _ => false
      end
  | _ => false
  end.

(** The row of a board: ID, Name, Owner, Created At, Modified At, Link. *)
Definition board_cells (E : env) (board : pyval) : list string :=
  match board with
  | PyDict fields =>
      map (csv_field E)
        [field fields "id"; field fields "name"; owner_name fields;
         field fields "createdAt"; field fields "modifiedAt"; field fields "viewLink"]
  | _ => []
  end.

(** A member record as the exporter takes it: a mapping whose
    [adminRoles], when it has some, is a sequence. *)
Definition is_export_member (member : pyval) : bool :=
  match member with
  | PyDict fields =>
      match dict_get fields "adminRoles" with
      | None | Some (PyList _) => true
      | Some _ => false
      end
  | _ => false
  end.

(** The admin roles joined by [", "]. *)
Definition admin_roles_text (E : env) (fields : list (string * pyval)) : string :=
  match dict_get fields "adminRoles" with
  | Some (PyList roles) => String.concat ", " (map (py_str E) roles)
  | _ => ""
  end.

(** The row of a member: id, active, adminRoles, email, lastActivityAt,
    license, licenseAssignedAt, role, type. *)
Definition member_cells (E : env) (member : pyval) : list string :=
  match member with
  | PyDict fields =>
      [csv_field E (field fields "id"); csv_field E (field fields "active");
       admin_roles_text E fields; csv_field E (field fields "email");
       csv_field E (field_or fields "lastActivityAt" "N/A");
       csv_field E (field fields "license");
       csv_field E (field_or fields "licenseAssignedAt" "N/A");
       csv_field E (field fields "role"); csv_field E (field fields "type")]
  | _ => []
  end.

(** The world after a file was written. *)
Definition with_file (w : world) (name : string) (rows : csv_rows) : world :=
  mkWorld (sent w) (stdout w) (stdin w) (file_set name rows (written w)).

(** *** Pages (spec 3 and 6) *)

(** A page is read off a response body as its records and its continuation
    token, if it carries one. *)
Definition page : Type := (list pyval * option pyval)%type.

Definition token_of (v : pyval) : option pyval :=
  if truthy v then Some v else None.

(** Cursor style: [{"data": [...], "cursor": <token>|absent}]. *)
Definition cursor_page (body : pyval) : option page :=
  match body with
  | PyDict fields =>
      match dict_get_default fields "data" (PyList []) with
      | PyList records =>
          Some (records, token_of (dict_get_default fields "cursor" PyNone))
      | _ => None
      end
  | _ => None
  end.

(** Link style: [{"data": [...], "links": {"next": <url>|absent}}]. *)
Definition link_page (body : pyval) : option page :=
  match body with
  | PyDict fields =>
      match dict_get_default fields "data" (PyList []),
            dict_get_default fields "links" (PyDict []) with
      | PyList records, PyDict links =>
          Some (records, token_of (dict_get_default links "next" PyNone))
      | _, _ => None
      end
  | _ => None
  end.

(** The request that asks for the page behind a token. *)
Definition cursor_request (url : string) (headers : list (string * string))
    (token : pyval) : request :=
  Get (PyStr url) headers (if truthy token then [("cursor", token)] else []).

Definition link_request (headers : list (string * string)) (token : pyval) : request :=
  Get token headers [("limit", PyInt 50)].

Section Serving.

Variable E : env.
Variable ask : pyval -> request.
Variable read : pyval -> option page.

(** After the requests [hist], the server answers the request for [token]
    with status 200 and a body that reads as the page [(records, next)]. *)
Definition answers (hist : list request) (token : pyval) (records : list pyval)
    (next : option pyval) : Prop :=
  exists r body,
    server E hist (ask token) = Responded r /\ status_code r = 200 /\
    json r = Some body /\ read body = Some (records, next).

(** The server hands out [pages] one after the other, each with a token
    that leads to the next; after them the exchange stands at a history and
    a token that satisfy [then_]. *)
Fixpoint serves (hist : list request) (token : pyval) (pages : list (list pyval))
    (then_ : list request -> pyval -> Prop) : Prop :=
  match pages with
  | [] => then_ hist token
  | records :: rest =>
      exists t, answers hist token records (Some t) /\
                serves (hist ++ [ask token]) t rest then_
  end.

(** The last page: it carries no token. *)
Definition last_page (records : list pyval) (hist : list request) (token : pyval) : Prop :=
  answers hist token records None.

(** A failed fetch: a status other than 200. *)
Definition bad_status (status : Z) (hist : list request) (token : pyval) : Prop :=
  exists r, server E hist (ask token) = Responded r /\ status_code r = status /\
            status <> 200.

(** A failed fetch: status 200 with a body that does not parse. *)
Definition bad_body (hist : list request) (token : pyval) : Prop :=
  exists r, server E hist (ask token) = Responded r /\ status_code r = 200 /\
            json r = None.

(** A failed fetch as [raise_for_status] sees it: a 4xx or 5xx status. *)
Definition error_status (status : Z) (hist : list request) (token : pyval) : Prop :=
  exists r, server E hist (ask token) = Responded r /\ status_code r = status /\
            400 <= status < 600.

(** A body that does not parse under a status [raise_for_status] lets
    through. *)
Definition unparseable (hist : list request) (token : pyval) : Prop :=
  exists r, server E hist (ask token) = Responded r /\
            ~ (400 <= status_code r < 600) /\ json r = None.

(** The server hands out exactly the pages [P1 .. Pn] of [pages]: each but
    the last carries a token that leads to the next, the last carries
    none. *)
Definition serves_all (hist : list request) (token : pyval)
    (pages : list (list pyval)) : Prop :=
  pages <> [] /\
  serves hist token (removelast pages) (last_page (last pages [])).

(** A server that answers by the request alone, whatever came before. *)
Definition stateless : Prop :=
  forall hist hist' req, server E hist req = server E hist' req.

(** The token on the page that the request for [token] brings. *)
Definition next_token (token : pyval) : option pyval :=
  match server E [] (ask token) with
  | Responded r =>
      if status_code r =? 200 then
        match json r with
        | Some body =>
            match read body with
            | Some (_, next) => next
            | None => None
            end
        | None => None
        end
      else None
  | TransportError => None
  end.

(** The token on page [n], the fetch starting from [token]. *)
Fixpoint token_at (n : nat) (token : pyval) : option pyval :=
  match n with
  | O => Some token
  | S n' =>
      match next_token token with
      | Some t => token_at n' t
      | None => None
      end
  end.

(** The token of page [k] is the token of the earlier page [j]. *)
Definition token_cycle (start : pyval) (j k : nat) : Prop :=
  (0 < j < k)%nat /\
  exists t, token_at j start = Some t /\ token_at k start = Some t.

End Serving.

(** A run that is still going after any number of iterations. *)
Definition diverges {A} (run : nat -> outcome A) : Prop :=
  forall fuel, exists w', run fuel = OutOfFuel w'.

(** A run that ends by raising. *)
Definition fails {A} (run : nat -> outcome A) : Prop :=
  exists fuel e w', run fuel = Raised e w'.

(** An outcome that is the return of [a], [n] requests after [w]. *)
Definition returns_after {A} (o : outcome A) (a : A) (w : world) (n : nat) : Prop :=
  exists w' reqs,
    o = Returned a w' /\ sent w' = sent w ++ reqs /\ List.length reqs = n.

(** An outcome that is the raise of [e], [n] requests after [w]. *)
Definition raises_after {A} (o : outcome A) (e : exn) (w : world) (n : nat) : Prop :=
  exists w' reqs,
    o = Raised e w' /\ sent w' = sent w ++ reqs /\ List.length reqs = n.

(** The world after more requests were sent. *)
Definition with_sent (w : world) (reqs : list request) : world :=
  mkWorld (sent w ++ reqs) (stdout w) (stdin w) (written w).

Definition with_stdout (w : world) (lines : list string) : world :=
  mkWorld (sent w) (stdout w ++ lines) (stdin w) (written w).

Definition final_world {A} (o : outcome A) : world :=
  match o with
  | Returned _ w | Raised _ w | OutOfFuel w => w
  end.

Definition is_get (req : request) : bool :=
  match req with Get _ _ _ => true | Post _ _ => false end.

Definition is_post (req : request) : bool := negb (is_get req).

(** A GET of the cursor-style fetchers is well formed when it carries no
    parameter at all, or one cursor that is a real token. *)
Definition cursor_params_ok (req : request) : bool :=
  match req with
  | Get _ _ [] => true
  | Get _ _ [(key, token)] => (key =? "cursor")%string && truthy token
  | _ => false
  end.

(* ================================================================= *)
(** ** Sample surroundings *)

(** Concrete records, pages and servers on which the statements below are
    exercised. *)

Definition member (id : string) (active : bool) (license : string) : pyval :=
  PyDict [("id", PyStr id); ("active", PyBool active); ("license", PyStr license)].

Definition three_members : list pyval :=
  [member "1" true "full"; member "2" false "full"; member "3" true "basic"].

Definition demo_pages : list (list pyval) :=
  [[member "1" true "full"; member "2" false "full"];
   [member "3" true "basic"];
   [member "4" true "full"]].

(** A body that reads as a page in both styles. *)
Definition page_body (records : list pyval) (next : option string) : pyval :=
  PyDict (("data", PyList records) ::
          match next with
          | Some t => [("cursor", PyStr t); ("links", PyDict [("next", PyStr t)])]
          | None => []
          end).

Definition ok (body : pyval) : reply := Responded (mkResponse 200 "" (Some body)).

(** A server that hands out [demo_pages], one page per request, and then
    acknowledges whatever follows. *)
Definition demo_server (hist : list request) (req : request) : reply :=
  match List.length hist with
  | 0%nat => ok (page_body (nth 0 demo_pages []) (Some "https://api.miro.com/v2/boards?page=2"))
  | 1%nat => ok (page_body (nth 1 demo_pages []) (Some "https://api.miro.com/v2/boards?page=3"))
  | 2%nat => ok (page_body (nth 2 demo_pages []) None)
  | _ => ok (PyDict [])
  end.

Definition demo_environ (name : string) : option string :=
  if (name =? "MIRO_API_TOKEN")%string then Some "token"
  else if (name =? "MIRO_ORG_ID")%string then Some "org"
  else if (name =? "SLACK_WEBHOOK_URL")%string then Some "https://hooks.slack.com/services/T/B/X"
  else None.

Definition demo_files (path : string) : file_status :=
  if (path =? "token.txt")%string then Content "token" else NotAFile.

Definition demo_env : env :=
  mkEnv demo_server demo_environ demo_files (fun _ => "").

(** A server whose every page carries the same token. *)
Definition looping_env : env :=
  mkEnv (fun _ _ => ok (page_body [member "1" true "full"] (Some "again")))
    demo_environ demo_files (fun _ => "").

(** A server whose second answer is not JSON. *)
Definition garbled_env : env :=
  mkEnv (fun hist _ =>
           match hist with
           | [] => ok (page_body (nth 0 demo_pages []) (Some "https://api.miro.com/v2/boards?page=2"))
           | _ => Responded (mkResponse 200 "<html>Bad Gateway</html>" None)
           end)
    demo_environ demo_files (fun _ => "").

(** A server with 601 licensed members on its single page. *)
Definition crowded_env : env :=
  mkEnv (fun hist _ =>
           match hist with
           | [] => ok (page_body (repeat (member "n" true "full") 601) None)
           | _ => ok (PyDict [])
           end)
    demo_environ demo_files (fun _ => "").

(** A server whose page carries an empty cursor. *)
Definition empty_cursor_env : env :=
  mkEnv (fun _ _ => ok (PyDict [("data", PyList three_members); ("cursor", PyStr "")]))
    demo_environ demo_files (fun _ => "").

(** Two boards, the second without owner. *)
Definition demo_boards : list pyval :=
  [PyDict [("id", PyStr "b1"); ("name", PyStr "Roadmap");
           ("owner", PyDict [("id", PyStr "u1"); ("name", PyStr "Ada")]);
           ("createdAt", PyStr "2024-01-01T00:00:00Z");
           ("modifiedAt", PyStr "2024-02-01T00:00:00Z");
           ("viewLink", PyStr "https://miro.com/app/board/b1")];
   PyDict [("id", PyStr "b2"); ("name", PyStr "Orphan")]].

(** A member whose [lastActivityAt] is null and who has no
    [licenseAssignedAt]. *)
Definition quiet_member : list (string * pyval) :=
  [("id", PyStr "m1"); ("active", PyBool true);
   ("adminRoles", PyList [PyStr "content_admin"; PyStr "user_admin"]);
   ("email", PyStr "ada@example.com"); ("lastActivityAt", PyNone);
   ("license", PyStr "full"); ("role", PyStr "organization_internal_admin");
   ("type", PyStr "organization-member")].

(** A world in which nothing has happened yet. *)
Definition fresh (input_lines : list string) : world := mkWorld [] [] input_lines [].

(** What a run has sent: [reqs] after [w], at most [n] of them, each with
    no parameter or a real cursor. *)
Definition sends {A} (o : outcome A) (w : world) (reqs : list request) (n : nat) : Prop :=
  sent (final_world o) = sent w ++ reqs /\
  Forall (fun req => cursor_params_ok req = true) reqs /\
  (List.length reqs <= n)%nat.

(** What the cursor-style loops find under ["cursor"] when pagination
    ends: no key at all, or a value that is not a real token ([None], the
    empty string, any other falsy object). *)
Definition ends_pagination (cursor : option pyval) : bool :=
  match cursor with
  | None => true
  | Some v => negb (truthy v)
  end.

(** The world the monitor leaves on [demo_env]. *)
Definition demo_report_world : world :=
  final_world (LicenseMonitor.main demo_env 3 (fresh [])).

(** The progress line of the members exporter. *)
Definition next_page_line : string := "Fetching next page...".

(** A server whose second answer is an internal error. *)
Definition failing_env : env :=
  mkEnv (fun hist _ =>
           match hist with
           | [] => ok (page_body (nth 0 demo_pages []) (Some "https://api.miro.com/v2/boards?page=2"))
           | _ => Responded (mkResponse 500 "Internal Server Error" None)
           end)
    demo_environ demo_files (fun _ => "").

(** Surroundings in which the organisation id is set but empty. *)
Definition no_org_env : env :=
  mkEnv demo_server
    (fun name => if (name =? "MIRO_ORG_ID")%string then Some "" else demo_environ name)
    demo_files (fun _ => "").


(** *** The tests of the code, as it writes them *)

Definition is_record (v : pyval) : bool :=
  match v with
  | PyDict _ => true
  | _ => false
  end.

(** [member.get("active") and member.get("license") == "full"] on a
    mapping: the truth value of [active], whatever its type. *)
Definition counts_as_licensed (member : pyval) : bool :=
  match member with
  | PyDict fields =>
      truthy (field fields "active") && eq_str (field fields "license") "full"
  | _ => false
  end.

(** What the boards fetcher finds under ["links"] when pagination ends:
    no key, or a mapping whose ["next"] is absent or falsy. *)
Definition ends_links (links : option pyval) : bool :=
  match links with
  | None => true
  | Some (PyDict l) => ends_pagination (dict_get l "next")
  | Some _ => false
  end.

(** A server whose single page is accepted and whose webhook refuses. *)
Definition rejecting_env : env :=
  mkEnv (fun hist _ =>
           match hist with
           | [] => ok (page_body three_members None)
           | _ => Responded (mkResponse 404 "no_service" None)
           end)
    demo_environ demo_files (fun _ => "").

(** A server whose page has links but no next one. *)
Definition linkless_env : env :=
  mkEnv (fun _ _ =>
           ok (PyDict [("data", PyList three_members);
                       ("links", PyDict [("self", PyStr "https://api.miro.com/v2/boards")])]))
    demo_environ demo_files (fun _ => "").

(** A server that answers with a JSON list. *)
Definition list_body_env : env :=
  mkEnv (fun _ _ => ok (PyList three_members)) demo_environ demo_files (fun _ => "").

(** No server at all. *)
Definition offline_env : env :=
  mkEnv (fun _ _ => TransportError) demo_environ demo_files (fun _ => "").

(** An object a [for] clause cannot iterate over. *)
Definition not_iterable (v : pyval) : bool :=
  match v with
  | PyNone | PyBool _ | PyInt _ => true
  | _ => false
  end.


(** A server that answers 200 with a message and no page. *)
Definition message_env : env :=
  mkEnv (fun _ _ => ok (PyDict [("message", PyStr "rate limit exceeded")]))
    demo_environ demo_files (fun _ => "").

(* ================================================================= *)
(** * Properties *)

(** ** Alert decision *)

Lemma render_variants_differ (u t e u' t' a : Z) :
  render (Overage u t e) <> render (WithinLimit u' t' a).
Proof.
  unfold render, fstr. simpl. intro H. discriminate H.
Qed.

Lemma alert_message_decide (used total : Z) :
  LicenseMonitor.alert_message used total = render (decide used total).
Proof.
  unfold LicenseMonitor.alert_message, decide.
  destruct (used >? total); reflexivity.
Qed.

(** C1: the message composed by the monitor is the rendering of
    [decide used total]; it is the overage text with excess [used - total]
    exactly when [used > total], and the within-limit text with
    [available = total - used] exactly when [used <= total] (so a tie is
    within limit, and every pair gets exactly one variant). *)
Theorem alert_decision (used total : Z) :
  LicenseMonitor.alert_message used total = render (decide used total) /\
  (decide used total = Overage used total (used - total) <-> used > total) /\
  (decide used total = WithinLimit used total (total - used) <-> used <= total) /\
  (LicenseMonitor.alert_message used total = render (Overage used total (used - total))
     <-> used > total) /\
  (LicenseMonitor.alert_message used total = render (WithinLimit used total (total - used))
     <-> used <= total).
Proof.
  rewrite alert_message_decide. unfold decide.
  destruct (used >? total) eqn:Hcmp.
  - apply Z.gtb_lt in Hcmp.
    repeat split; intros; try reflexivity; try lia; try discriminate.
  - assert (used <= total) by (rewrite Z.gtb_ltb in Hcmp; apply Z.ltb_ge in Hcmp; lia).
    repeat split; intros; try reflexivity; try lia; try discriminate.
Qed.

Example alert_601_of_600 : decide 601 600 = Overage 601 600 1.
Proof. reflexivity. Qed.

Example alert_600_of_600 : decide 600 600 = WithinLimit 600 600 0.
Proof. reflexivity. Qed.

(** ** Aggregation *)

Lemma licensed_users_member (fields : list (string * pyval)) (rest : list pyval)
    (w : world) :
  is_member_record (PyDict fields) = true ->
  LicenseMonitor.licensed_users (PyDict fields :: rest) w =
  match LicenseMonitor.licensed_users rest w with
  | Returned kept w' =>
      Returned (if is_licensed (PyDict fields) then PyDict fields :: kept else kept) w'
  | other => other
  end.
Proof.
  intros Hrec. simpl in Hrec. simpl.
  unfold bind, ret, dict_get_default.
  destruct (dict_get fields "active") as [[| [|] | | | |]|]; try discriminate; simpl;
    try (destruct (LicenseMonitor.licensed_users rest w); reflexivity).
  destruct (dict_get fields "license") as [license|]; simpl;
    destruct (LicenseMonitor.licensed_users rest w); reflexivity.
Qed.

Lemma licensed_users_filter_aux (members : list pyval) (w : world) :
  forallb is_member_record members = true ->
  LicenseMonitor.licensed_users members w = Returned (filter is_licensed members) w /\
  List.length (filter is_licensed members) =
    count_occ bool_dec (map is_licensed members) true.
Proof.
  intros Hrec. split.
  - induction members as [|member rest IH]; [reflexivity|].
    simpl in Hrec. apply andb_true_iff in Hrec. destruct Hrec as [Hm Hrest].
    destruct member; try discriminate Hm.
    rewrite licensed_users_member by exact Hm.
    rewrite (IH Hrest). cbn [filter].
    destruct (is_licensed (PyDict fields)); reflexivity.
  - clear Hrec. induction members as [|member rest IH]; [reflexivity|].
    cbn [filter map count_occ].
    destruct (is_licensed member), (bool_dec _ true); try congruence;
      cbn [List.length]; rewrite IH; reflexivity.
Qed.

(** C3: over member records, the monitor keeps exactly the members with
    [active == true] and [license == "full"], so the number it reports is
    the number of such records. *)
Theorem licensed_users_filter (members : list pyval) (w : world) :
  forallb is_member_record members = true ->
  LicenseMonitor.licensed_users members w = Returned (filter is_licensed members) w /\
  List.length (filter is_licensed members) =
    count_occ bool_dec (map is_licensed members) true.
Proof. apply licensed_users_filter_aux. Qed.

(** The three members of the specification's example: one is counted. *)
Lemma licensed_users_filter_witness :
  LicenseMonitor.licensed_users three_members (fresh []) =
    Returned [member "1" true "full"] (fresh []) /\
  List.length (filter is_licensed three_members) = 1%nat.
Proof.
  destruct (licensed_users_filter three_members (fresh []) eq_refl) as [Hrun _].
  split; [exact Hrun | reflexivity].
Defined.


(** Outside the data model the test is the truth value of [active], as
    the comprehension writes it: a non-empty string counts as active. *)
Example licensed_users_truthy_active :
  LicenseMonitor.licensed_users
    [PyDict [("active", PyStr "yes"); ("license", PyStr "full")]] (fresh []) =
  Returned [PyDict [("active", PyStr "yes"); ("license", PyStr "full")]] (fresh []).
Proof. reflexivity. Qed.

(** A member that is no mapping makes the comprehension raise. *)
Example licensed_users_not_a_record :
  LicenseMonitor.licensed_users [PyStr "id"] (fresh []) = Raised AttributeError (fresh []).
Proof. reflexivity. Qed.

(** ** Pagination *)

Lemma with_sent_sent (w : world) (a b : list request) :
  with_sent (with_sent w a) b = with_sent w (a ++ b).
Proof. unfold with_sent; simpl. rewrite app_assoc. reflexivity. Qed.

Lemma with_sent_nil (w : world) : with_sent w [] = w.
Proof. destruct w; unfold with_sent; simpl. rewrite app_nil_r. reflexivity. Qed.

Lemma token_of_some (v t : pyval) :
  token_of v = Some t -> v = t /\ truthy t = true.
Proof.
  unfold token_of. destruct (truthy v) eqn:Hv; intros H; inversion H; subst; auto.
Qed.

Lemma token_of_none (v : pyval) : token_of v = None -> truthy v = false.
Proof. unfold token_of. destruct (truthy v); [discriminate | reflexivity]. Qed.

Lemma cursor_page_inv (body : pyval) (records : list pyval) (next : option pyval) :
  cursor_page body = Some (records, next) ->
  exists fields, body = PyDict fields /\
    dict_get_default fields "data" (PyList []) = PyList records /\
    token_of (dict_get_default fields "cursor" PyNone) = next.
Proof.
  destruct body as [| | | | |fields]; try discriminate. unfold cursor_page.
  destruct (dict_get_default fields "data" (PyList [])) eqn:Hd; try discriminate.
  intros H; inversion H; subst. eauto.
Qed.

Lemma link_page_inv (body : pyval) (records : list pyval) (next : option pyval) :
  link_page body = Some (records, next) ->
  exists fields links, body = PyDict fields /\
    dict_get_default fields "data" (PyList []) = PyList records /\
    dict_get_default fields "links" (PyDict []) = PyDict links /\
    token_of (dict_get_default links "next" PyNone) = next.
Proof.
  destruct body as [| | | | |fields]; try discriminate. unfold link_page.
  destruct (dict_get_default fields "data" (PyList [])) eqn:Hd; try discriminate.
  destruct (dict_get_default fields "links" (PyDict [])) eqn:Hl; try discriminate.
  intros H; inversion H; subst. eauto 6.
Qed.

(** Unfolding of the monad's operations and of the primitive effects. *)
Ltac run :=
  unfold bind, ret, raise, out_of_fuel, try_except, requests_get, requests_post, http,
    raise_for_status, response_json, py_get, list_extend, print, with_sent;
  cbn -[dict_get_default dict_get truthy str_of_int fstr
        LicenseMonitor.fetch_members_loop MembersExport.fetch_members_loop
        BoardsExport.fetch_boards_loop].

Section MonitorFetch.

Variable E : env.
Variable url : string.
Variable headers : list (string * string).

Let ask := cursor_request url headers.
Let loop := LicenseMonitor.fetch_members_loop E.

Lemma monitor_page (fuel : nat) (acc : list pyval) (token : pyval) (w : world)
    (records : list pyval) (t : pyval) :
  answers E ask cursor_page (sent w) token records (Some t) ->
  loop (S fuel) url headers acc token w =
  loop fuel url headers (acc ++ records) t (with_sent w [ask token]).
Proof.
  intros (r & body & Hsrv & Hst & Hjson & Hread).
  apply cursor_page_inv in Hread. destruct Hread as (fields & -> & Hdata & Htok).
  apply token_of_some in Htok. destruct Htok as [Hc Ht].
  unfold loop, ask, cursor_request in *. cbn [LicenseMonitor.fetch_members_loop]. run.
  rewrite Hsrv, Hst. run. rewrite Hjson. run. rewrite Hdata. run.
  rewrite Hc, Ht. reflexivity.
Qed.

Lemma monitor_last_page (fuel : nat) (acc : list pyval) (token : pyval) (w : world)
    (records : list pyval) :
  last_page E ask cursor_page records (sent w) token ->
  loop (S fuel) url headers acc token w =
  Returned (acc ++ records) (with_sent w [ask token]).
Proof.
  intros (r & body & Hsrv & Hst & Hjson & Hread).
  apply cursor_page_inv in Hread. destruct Hread as (fields & -> & Hdata & Htok).
  apply token_of_none in Htok.
  unfold loop, ask, cursor_request in *. cbn [LicenseMonitor.fetch_members_loop]. run.
  rewrite Hsrv, Hst. run. rewrite Hjson. run. rewrite Hdata. run.
  rewrite Htok. reflexivity.
Qed.

(** Over a run of pages that each carry a token, the loop fetches them in
    order and stands where the run ends. *)
Lemma monitor_pages (pages : list (list pyval)) (then_ : list request -> pyval -> Prop) :
  forall (token : pyval) (w : world),
    serves E ask cursor_page (sent w) token pages then_ ->
    exists token' reqs,
      then_ (sent w ++ reqs) token' /\
      List.length reqs = List.length pages /\
      forall fuel acc,
        loop (List.length pages + fuel)%nat url headers acc token w =
        loop fuel url headers (acc ++ List.concat pages) token' (with_sent w reqs).
Proof.
  induction pages as [|records rest IH]; intros token w Hserves.
  - exists token, []. rewrite app_nil_r. repeat split; auto.
    intros fuel acc. simpl. rewrite app_nil_r, with_sent_nil. reflexivity.
  - destruct Hserves as (t & Hpage & Hrest).
    destruct (IH t (with_sent w [ask token]) Hrest) as (token' & reqs & Hthen & Hlen & Hrun).
    exists token', (ask token :: reqs). simpl in Hthen. rewrite <- app_assoc in Hthen.
    repeat split; [exact Hthen | simpl; congruence |].
    intros fuel acc. cbn [List.length Nat.add].
    rewrite (monitor_page _ _ _ _ _ _ Hpage), Hrun, with_sent_sent.
    cbn [List.concat]. rewrite app_assoc. reflexivity.
Qed.

End MonitorFetch.

Section MonitorFailure.

Variable E : env.
Variable url : string.
Variable headers : list (string * string).

Let ask := cursor_request url headers.
Let loop := LicenseMonitor.fetch_members_loop E.

Lemma monitor_error_status (fuel : nat) (acc : list pyval) (token : pyval) (w : world)
    (status : Z) :
  error_status E ask status (sent w) token ->
  loop (S fuel) url headers acc token w =
  Raised (HTTPError status) (with_sent w [ask token]).
Proof.
  intros (r & Hsrv & Hst & Hrange).
  unfold loop, ask, cursor_request in *. cbn [LicenseMonitor.fetch_members_loop]. run.
  rewrite Hsrv, Hst.
  replace ((400 <=? status) && (status <? 600)) with true; [reflexivity|].
  symmetry. apply andb_true_iff. split; [apply Z.leb_le | apply Z.ltb_lt]; lia.
Qed.

Lemma monitor_unparseable (fuel : nat) (acc : list pyval) (token : pyval) (w : world) :
  unparseable E ask (sent w) token ->
  loop (S fuel) url headers acc token w =
  Raised JSONDecodeError (with_sent w [ask token]).
Proof.
  intros (r & Hsrv & Hrange & Hjson).
  unfold loop, ask, cursor_request in *. cbn [LicenseMonitor.fetch_members_loop]. run.
  rewrite Hsrv.
  replace ((400 <=? status_code r) && (status_code r <? 600)) with false.
  - run. rewrite Hjson. reflexivity.
  - symmetry. apply andb_false_iff.
    destruct (Z.leb_spec 400 (status_code r)); [right | left; reflexivity].
    apply Z.ltb_ge. lia.
Qed.

End MonitorFailure.

Lemma with_stdout_sent_step (w : world) (a : request) (reqs : list request)
    (line : string) (lines : list string) :
  with_stdout (with_sent (with_stdout (with_sent w [a]) [line]) reqs) lines =
  with_stdout (with_sent w (a :: reqs)) (line :: lines).
Proof.
  unfold with_stdout, with_sent; simpl. rewrite <- !app_assoc. reflexivity.
Qed.

Lemma with_stdout_nil (w : world) : with_stdout w [] = w.
Proof. destruct w; unfold with_stdout; simpl. rewrite app_nil_r. reflexivity. Qed.

Section MembersExportFetch.

Variable E : env.
Variable url : string.
Variable headers : list (string * string).

Let ask := cursor_request url headers.
Let loop := MembersExport.fetch_members_loop E.

Lemma members_page (fuel : nat) (acc : list pyval) (token : pyval) (w : world)
    (records : list pyval) (t : pyval) :
  answers E ask cursor_page (sent w) token records (Some t) ->
  loop (S fuel) url headers acc token w =
  loop fuel url headers (acc ++ records) t
    (with_stdout (with_sent w [ask token]) [next_page_line]).
Proof.
  intros (r & body & Hsrv & Hst & Hjson & Hread).
  apply cursor_page_inv in Hread. destruct Hread as (fields & -> & Hdata & Htok).
  apply token_of_some in Htok. destruct Htok as [Hc Ht].
  unfold loop, ask, cursor_request in *. cbn [MembersExport.fetch_members_loop]. run.
  rewrite Hsrv, Hst. run. rewrite Hjson. run. rewrite Hdata. run.
  rewrite Hc, Ht. reflexivity.
Qed.

Lemma members_last_page (fuel : nat) (acc : list pyval) (token : pyval) (w : world)
    (records : list pyval) :
  last_page E ask cursor_page records (sent w) token ->
  loop (S fuel) url headers acc token w =
  Returned (acc ++ records) (with_sent w [ask token]).
Proof.
  intros (r & body & Hsrv & Hst & Hjson & Hread).
  apply cursor_page_inv in Hread. destruct Hread as (fields & -> & Hdata & Htok).
  apply token_of_none in Htok.
  unfold loop, ask, cursor_request in *. cbn [MembersExport.fetch_members_loop]. run.
  rewrite Hsrv, Hst. run. rewrite Hjson. run. rewrite Hdata. run.
  rewrite Htok. reflexivity.
Qed.

Lemma members_bad_status (fuel : nat) (acc : list pyval) (token : pyval) (w : world)
    (status : Z) :
  bad_status E ask status (sent w) token ->
  exists line,
    loop (S fuel) url headers acc token w =
    Returned acc (with_stdout (with_sent w [ask token]) [line]).
Proof.
  intros (r & Hsrv & Hst & Hne).
  exists (fstr ["Error: Unable to fetch data (Status Code ";
                str_of_int (status_code r); "): "; text r]).
  unfold loop, ask, cursor_request in *. cbn [MembersExport.fetch_members_loop]. run.
  rewrite Hsrv. apply Z.eqb_neq in Hne. rewrite Hst, Hne. reflexivity.
Qed.

Lemma members_bad_body (fuel : nat) (acc : list pyval) (token : pyval) (w : world) :
  bad_body E ask (sent w) token ->
  loop (S fuel) url headers acc token w =
  Raised JSONDecodeError (with_sent w [ask token]).
Proof.
  intros (r & Hsrv & Hst & Hjson).
  unfold loop, ask, cursor_request in *. cbn [MembersExport.fetch_members_loop]. run.
  rewrite Hsrv, Hst. run. rewrite Hjson. reflexivity.
Qed.

Lemma members_pages (pages : list (list pyval)) (then_ : list request -> pyval -> Prop) :
  forall (token : pyval) (w : world),
    serves E ask cursor_page (sent w) token pages then_ ->
    exists token' reqs,
      then_ (sent w ++ reqs) token' /\
      List.length reqs = List.length pages /\
      forall fuel acc,
        loop (List.length pages + fuel)%nat url headers acc token w =
        loop fuel url headers (acc ++ List.concat pages) token'
          (with_stdout (with_sent w reqs) (repeat next_page_line (List.length pages))).
Proof.
  induction pages as [|records rest IH]; intros token w Hserves.
  - exists token, []. rewrite app_nil_r. repeat split; auto.
    intros fuel acc. simpl. rewrite app_nil_r, with_sent_nil, with_stdout_nil. reflexivity.
  - destruct Hserves as (t & Hpage & Hrest).
    destruct (IH t (with_stdout (with_sent w [ask token]) [next_page_line]) Hrest)
      as (token' & reqs & Hthen & Hlen & Hrun).
    exists token', (ask token :: reqs). simpl in Hthen. rewrite <- app_assoc in Hthen.
    repeat split; [exact Hthen | simpl; congruence |].
    intros fuel acc. cbn [List.length Nat.add repeat].
    rewrite (members_page _ _ _ _ _ _ Hpage), Hrun, with_stdout_sent_step.
    cbn [List.concat]. rewrite app_assoc. reflexivity.
Qed.

End MembersExportFetch.

Section BoardsFetch.

Variable E : env.
Variable headers : list (string * string).

Let ask := link_request headers.
Let loop := fun fuel => BoardsExport.fetch_boards_loop E fuel headers BoardsExport.limit_params.

Lemma boards_page (fuel : nat) (acc : list pyval) (token : pyval) (w : world)
    (records : list pyval) (t : pyval) :
  truthy token = true ->
  answers E ask link_page (sent w) token records (Some t) ->
  truthy t = true /\
  loop (S fuel) acc token w = loop fuel (acc ++ records) t (with_sent w [ask token]).
Proof.
  intros Htoken (r & body & Hsrv & Hst & Hjson & Hread).
  apply link_page_inv in Hread.
  destruct Hread as (fields & links & -> & Hdata & Hlinks & Htok).
  apply token_of_some in Htok. destruct Htok as [Hc Ht]. split; [exact Ht|].
  unfold loop, ask, link_request, BoardsExport.limit_params in *.
  cbn [BoardsExport.fetch_boards_loop].
  rewrite Htoken. run.
  rewrite Hsrv, Hst. run. rewrite Hjson. run. rewrite Hdata. run. rewrite Hlinks. run.
  rewrite Hc, Ht. reflexivity.
Qed.

Lemma boards_last_page (fuel : nat) (acc : list pyval) (token : pyval) (w : world)
    (records : list pyval) :
  truthy token = true ->
  last_page E ask link_page records (sent w) token ->
  loop (S fuel) acc token w = Returned (acc ++ records) (with_sent w [ask token]).
Proof.
  intros Htoken (r & body & Hsrv & Hst & Hjson & Hread).
  apply link_page_inv in Hread.
  destruct Hread as (fields & links & -> & Hdata & Hlinks & Htok).
  apply token_of_none in Htok.
  unfold loop, ask, link_request, BoardsExport.limit_params in *.
  cbn [BoardsExport.fetch_boards_loop].
  rewrite Htoken. run.
  rewrite Hsrv, Hst. run. rewrite Hjson. run. rewrite Hdata. run. rewrite Hlinks. run.
  rewrite Htok. reflexivity.
Qed.

Lemma boards_bad_status (fuel : nat) (acc : list pyval) (token : pyval) (w : world)
    (status : Z) :
  truthy token = true ->
  bad_status E ask status (sent w) token ->
  exists line,
    loop (S fuel) acc token w =
    Returned acc (with_stdout (with_sent w [ask token]) [line]).
Proof.
  intros Htoken (r & Hsrv & Hst & Hne).
  exists (fstr ["Error: "; str_of_int (status_code r); ", "; text r]).
  unfold loop, ask, link_request, BoardsExport.limit_params in *.
  cbn [BoardsExport.fetch_boards_loop].
  rewrite Htoken. run.
  rewrite Hsrv. apply Z.eqb_neq in Hne. rewrite Hst, Hne. reflexivity.
Qed.

Lemma boards_bad_body (fuel : nat) (acc : list pyval) (token : pyval) (w : world) :
  truthy token = true ->
  bad_body E ask (sent w) token ->
  loop (S fuel) acc token w =
  Returned acc (with_stdout (with_sent w [ask token])
                  ["Error: Failed to parse JSON response."]).
Proof.
  intros Htoken (r & Hsrv & Hst & Hjson).
  unfold loop, ask, link_request, BoardsExport.limit_params in *.
  cbn [BoardsExport.fetch_boards_loop].
  rewrite Htoken. run.
  rewrite Hsrv, Hst. run. rewrite Hjson. reflexivity.
Qed.

Lemma boards_pages (pages : list (list pyval)) (then_ : list request -> pyval -> Prop) :
  forall (token : pyval) (w : world),
    truthy token = true ->
    serves E ask link_page (sent w) token pages then_ ->
    exists token' reqs,
      truthy token' = true /\
      then_ (sent w ++ reqs) token' /\
      List.length reqs = List.length pages /\
      forall fuel acc,
        loop (List.length pages + fuel)%nat acc token w =
        loop fuel (acc ++ List.concat pages) token' (with_sent w reqs).
Proof.
  induction pages as [|records rest IH]; intros token w Htoken Hserves.
  - exists token, []. rewrite app_nil_r. repeat split; auto.
    intros fuel acc. simpl. rewrite app_nil_r, with_sent_nil. reflexivity.
  - destruct Hserves as (t & Hpage & Hrest).
    assert (Hstep := fun fuel acc => boards_page fuel acc token w records t Htoken Hpage).
    destruct (Hstep O []) as [Ht _].
    destruct (IH t (with_sent w [ask token]) Ht Hrest)
      as (token' & reqs & Htoken' & Hthen & Hlen & Hrun).
    exists token', (ask token :: reqs). simpl in Hthen. rewrite <- app_assoc in Hthen.
    repeat split; [exact Htoken' | exact Hthen | simpl; congruence |].
    intros fuel acc. cbn [List.length Nat.add].
    destruct (Hstep (List.length rest + fuel)%nat acc) as [_ ->].
    rewrite Hrun, with_sent_sent.
    cbn [List.concat]. rewrite app_assoc. reflexivity.
Qed.

End BoardsFetch.

Lemma pages_split (pages : list (list pyval)) :
  pages <> [] ->
  pages = removelast pages ++ [last pages []] /\
  List.length pages = S (List.length (removelast pages)).
Proof.
  intros Hne. assert (H := app_removelast_last [] Hne). split; [exact H|].
  rewrite H at 1. rewrite length_app. simpl. lia.
Qed.

Lemma monitor_fetch_all (E : env) (url : string) (headers : list (string * string))
    (pages : list (list pyval)) (fuel : nat) (w : world) :
  (List.length pages <= fuel)%nat ->
  serves_all E (cursor_request url headers) cursor_page (sent w) PyNone pages ->
  returns_after (LicenseMonitor.fetch_members_loop E fuel url headers [] PyNone w)
    (List.concat pages) w (List.length pages).
Proof.
  intros Hfuel [Hne Hserves].
  destruct (pages_split pages Hne) as [Hpages Hlen].
  set (init := removelast pages) in *. set (final := last pages []) in *.
  clearbody init final. subst pages. clear Hne.
  destruct (monitor_pages E url headers _ _ _ _ Hserves) as (token & reqs & Hlast & Hn & Hrun).
  replace fuel with (List.length init + S (fuel - S (List.length init)))%nat by lia.
  rewrite Hrun.
  rewrite (monitor_last_page E url headers _ _ _ _ final) by exact Hlast.
  exists (with_sent (with_sent w reqs) [cursor_request url headers token]),
         (reqs ++ [cursor_request url headers token]).
  repeat split.
  - simpl. rewrite concat_app. simpl. rewrite app_nil_r. reflexivity.
  - simpl. rewrite app_assoc. reflexivity.
  - rewrite length_app. simpl. lia.
Qed.


Lemma boards_fetch_all (E : env) (headers : list (string * string))
    (pages : list (list pyval)) (fuel : nat) (url : pyval) (w : world) :
  (List.length pages <= fuel)%nat ->
  truthy url = true ->
  serves_all E (link_request headers) link_page (sent w) url pages ->
  returns_after
    (BoardsExport.fetch_boards_loop E fuel headers BoardsExport.limit_params [] url w)
    (List.concat pages) w (List.length pages).
Proof.
  intros Hfuel Hurl [Hne Hserves].
  destruct (pages_split pages Hne) as [Hpages Hlen].
  set (init := removelast pages) in *. set (final := last pages []) in *.
  clearbody init final. subst pages. clear Hne.
  destruct (boards_pages E headers _ _ _ _ Hurl Hserves)
    as (token & reqs & Htoken & Hlast & Hn & Hrun).
  replace fuel with (List.length init + S (fuel - S (List.length init)))%nat by lia.
  rewrite Hrun.
  rewrite (boards_last_page E headers _ _ _ _ final Htoken) by exact Hlast.
  eexists _, (reqs ++ [link_request headers token]).
  repeat split.
  - simpl. rewrite concat_app. simpl. rewrite app_nil_r. reflexivity.
  - simpl. rewrite app_assoc. reflexivity.
  - rewrite length_app. simpl. lia.
Qed.

(** C2: when the server hands out the pages [P1 .. Pn], each but the last
    with a token that leads to the next and the last without one, the
    monitor's [fetch_members] and the exporter's [fetch_boards] return the
    records of all pages concatenated in page order, after exactly [n]
    requests (one request for a single page). *)
Theorem fetch_all_concatenates_pages (E : env) (pages : list (list pyval)) (fuel : nat)
    (api_token org_id : string) (w : world) :
  (List.length pages <= fuel)%nat ->
  (serves_all E
     (cursor_request (LicenseMonitor.members_url org_id)
        (LicenseMonitor.auth_headers api_token))
     cursor_page (sent w) PyNone pages ->
   returns_after (LicenseMonitor.fetch_members E fuel api_token org_id w)
     (List.concat pages) w (List.length pages)) /\
  (serves_all E (link_request (BoardsExport.auth_headers api_token))
     link_page (sent w) (PyStr BoardsExport.boards_url) pages ->
   returns_after (BoardsExport.fetch_boards E fuel api_token w)
     (List.concat pages) w (List.length pages)).
Proof.
  intros Hfuel. split; intros Hserves.
  - apply monitor_fetch_all; assumption.
  - apply boards_fetch_all; [assumption | reflexivity | assumption].
Qed.

Lemma fetch_all_concatenates_pages_witness :
  returns_after (LicenseMonitor.fetch_members demo_env 3 "token" "org" (fresh []))
    (List.concat demo_pages) (fresh []) 3 /\
  returns_after (BoardsExport.fetch_boards demo_env 3 "token" (fresh []))
    (List.concat demo_pages) (fresh []) 3.
Proof.
  destruct (fetch_all_concatenates_pages demo_env demo_pages 3 "token" "org" (fresh [])
              (le_n 3)) as [Hmonitor Hboards].
  split.
  - apply Hmonitor. split; [discriminate|].
    simpl. eexists; split; [eexists _, _; repeat split; reflexivity|].
    eexists; split; [eexists _, _; repeat split; reflexivity|].
    eexists _, _; repeat split; reflexivity.
  - apply Hboards. split; [discriminate|].
    simpl. eexists; split; [eexists _, _; repeat split; reflexivity|].
    eexists; split; [eexists _, _; repeat split; reflexivity|].
    eexists _, _; repeat split; reflexivity.
Defined.

Example single_page_single_fetch :
  returns_after
    (LicenseMonitor.fetch_members
       (mkEnv (fun _ _ => ok (page_body three_members None)) demo_environ demo_files
          (fun _ => ""))
       1 "token" "org" (fresh []))
    three_members (fresh []) 1.
Proof.
  eexists _, _. repeat split; reflexivity.
Qed.

(** ** Requests of the cursor-style fetchers *)

Lemma cursor_request_ok (url : string) (headers : list (string * string)) (token : pyval) :
  cursor_params_ok (cursor_request url headers token) = true.
Proof.
  unfold cursor_request. destruct (truthy token) eqn:Ht; simpl; [|reflexivity].
  rewrite Ht. reflexivity.
Qed.

Lemma sends_one {A} (o : outcome A) (w : world) (req : request) (n : nat) :
  sent (final_world o) = sent w ++ [req] ->
  cursor_params_ok req = true ->
  sends o w [req] (S n).
Proof.
  intros Hs Hok. repeat split; [exact Hs | repeat constructor; exact Hok | simpl; lia].
Qed.

Lemma sends_more {A} (o : outcome A) (w w1 : world) (req : request)
    (reqs : list request) (n : nat) :
  sent w1 = sent w ++ [req] ->
  cursor_params_ok req = true ->
  sends o w1 reqs n ->
  sends o w (req :: reqs) (S n).
Proof.
  intros Hw1 Hok (Hs & Hall & Hlen). repeat split.
  - rewrite Hs, Hw1, <- app_assoc. reflexivity.
  - constructor; assumption.
  - simpl; lia.
Qed.

(** Case analysis on the next thing a run inspects. *)
Ltac crack :=
  repeat (match goal with
          | |- context [match ?x with _ => _ end] =>
              lazymatch x with
              | context [match _ with _ => _ end] => fail
              | _ => destruct x eqn:?
              end
          end; run).

Lemma monitor_loop_sends (E : env) (url : string) (headers : list (string * string)) :
  forall (fuel : nat) (acc : list pyval) (token : pyval) (w : world),
    exists reqs,
      sends (LicenseMonitor.fetch_members_loop E fuel url headers acc token w) w reqs fuel /\
      (fuel <> O -> exists rest, reqs = cursor_request url headers token :: rest).
Proof.
  induction fuel as [|fuel IH]; intros acc token w.
  - exists []. split; [|congruence]. repeat split; simpl; auto using app_nil_r.
  - pose proof (cursor_request_ok url headers token) as Hok.
    cbn [LicenseMonitor.fetch_members_loop]. run.
    fold (cursor_request url headers token).
    set (req := cursor_request url headers token) in *.
    set (w1 := {| sent := sent w ++ [req]; stdout := stdout w; stdin := stdin w;
                  written := written w |}).
    assert (Hw1 : sent w1 = sent w ++ [req]) by reflexivity.
    clearbody req w1.
    crack;
      try (exists [req]; split; [apply sends_one; simpl; assumption | eauto]);
      match goal with
      | |- context [LicenseMonitor.fetch_members_loop E fuel url headers ?a ?t ?w'] =>
          destruct (IH a t w') as (reqs & Hsends & _);
          exists (req :: reqs); split; [eapply sends_more; eassumption | eauto]
      end.
Qed.

Lemma members_loop_sends (E : env) (url : string) (headers : list (string * string)) :
  forall (fuel : nat) (acc : list pyval) (token : pyval) (w : world),
    exists reqs,
      sends (MembersExport.fetch_members_loop E fuel url headers acc token w) w reqs fuel /\
      (fuel <> O -> exists rest, reqs = cursor_request url headers token :: rest).
Proof.
  induction fuel as [|fuel IH]; intros acc token w.
  - exists []. split; [|congruence]. repeat split; simpl; auto using app_nil_r.
  - pose proof (cursor_request_ok url headers token) as Hok.
    cbn [MembersExport.fetch_members_loop]. run.
    fold (cursor_request url headers token).
    set (req := cursor_request url headers token) in *.
    set (w1 := {| sent := sent w ++ [req]; stdout := stdout w; stdin := stdin w;
                  written := written w |}).
    assert (Hw1 : sent w1 = sent w ++ [req]) by reflexivity.
    clearbody req w1.
    crack;
      try (exists [req]; split; [apply sends_one; simpl; assumption | eauto]);
      match goal with
      | |- context [MembersExport.fetch_members_loop E fuel url headers ?a ?t ?w'] =>
          destruct (IH a t w') as (reqs & Hsends & _);
          exists (req :: reqs);
          split; [eapply sends_more; [simpl; exact Hw1 | exact Hok | exact Hsends] | eauto]
      end.
Qed.

Lemma ends_pagination_token (fields : list (string * pyval)) :
  ends_pagination (dict_get fields "cursor") = true ->
  token_of (dict_get_default fields "cursor" PyNone) = None.
Proof.
  unfold ends_pagination, dict_get_default, token_of.
  destruct (dict_get fields "cursor") as [v|]; [|reflexivity].
  destruct (truthy v); [discriminate | reflexivity].
Qed.

(** C9: in both cursor-style fetchers, (1) a response whose ["cursor"] is
    absent, [None], the empty string or any other falsy value ends the
    loop with that page, whatever fuel is left; (2) every request a run
    sends carries either no parameter at all or one ["cursor"] that is a
    real token, and the first request of a fetch carries none. *)
Theorem cursor_tokens (E : env) (url : string) (headers : list (string * string)) :
  (ends_pagination None = true /\ ends_pagination (Some PyNone) = true /\
   ends_pagination (Some (PyStr "")) = true) /\
  (forall fuel acc token w r fields records,
     server E (sent w) (cursor_request url headers token) = Responded r ->
     status_code r = 200 ->
     json r = Some (PyDict fields) ->
     dict_get_default fields "data" (PyList []) = PyList records ->
     ends_pagination (dict_get fields "cursor") = true ->
     LicenseMonitor.fetch_members_loop E (S fuel) url headers acc token w =
       Returned (acc ++ records) (with_sent w [cursor_request url headers token]) /\
     MembersExport.fetch_members_loop E (S fuel) url headers acc token w =
       Returned (acc ++ records) (with_sent w [cursor_request url headers token])) /\
  (forall fuel acc token w,
     exists reqs,
       sends (LicenseMonitor.fetch_members_loop E fuel url headers acc token w) w reqs fuel /\
       (fuel <> O -> exists rest, reqs = cursor_request url headers token :: rest)) /\
  (forall fuel acc token w,
     exists reqs,
       sends (MembersExport.fetch_members_loop E fuel url headers acc token w) w reqs fuel /\
       (fuel <> O -> exists rest, reqs = cursor_request url headers token :: rest)) /\
  cursor_request url headers PyNone = Get (PyStr url) headers [].
Proof.
  split; [repeat split|].
  split; [|split; [apply monitor_loop_sends | split; [apply members_loop_sends | reflexivity]]].
  intros fuel acc token w r fields records Hsrv Hst Hjson Hdata Hend.
  assert (Hlast : last_page E (cursor_request url headers) cursor_page records (sent w) token).
  { exists r, (PyDict fields). repeat split; try assumption.
    unfold cursor_page. rewrite Hdata, (ends_pagination_token _ Hend). reflexivity. }
  split; [apply monitor_last_page | apply members_last_page]; exact Hlast.
Qed.

(** ** A failure at page k *)

(** X8: the boards exporter returns the pages fetched before the failure,
    for a bad status as for a body that does not parse. *)
Lemma boards_partial_on_failure (E : env) (headers : list (string * string))
    (pages : list (list pyval)) (fuel : nat) (url : pyval) (w : world) :
  (List.length pages < fuel)%nat ->
  truthy url = true ->
  serves E (link_request headers) link_page (sent w) url pages
    (fun hist token =>
       (exists status, bad_status E (link_request headers) status hist token) \/
       bad_body E (link_request headers) hist token) ->
  returns_after
    (BoardsExport.fetch_boards_loop E fuel headers BoardsExport.limit_params [] url w)
    (List.concat pages) w (S (List.length pages)).
Proof.
  intros Hfuel Hurl Hserves.
  destruct (boards_pages E headers _ _ _ _ Hurl Hserves)
    as (token & reqs & Htoken & Hfail & Hn & Hrun).
  replace fuel with (List.length pages + S (fuel - S (List.length pages)))%nat by lia.
  rewrite Hrun. simpl app.
  assert (Hsent : sent (with_sent w reqs) = sent w ++ reqs) by reflexivity.
  rewrite <- Hsent in Hfail.
  destruct Hfail as [[status Hbad] | Hbad].
  - destruct (boards_bad_status E headers (fuel - S (List.length pages)) (List.concat pages)
                token _ status Htoken Hbad) as [line ->].
    eexists _, (reqs ++ [link_request headers token]). repeat split.
    + simpl. rewrite app_assoc. reflexivity.
    + rewrite length_app. simpl. lia.
  - rewrite (boards_bad_body E headers _ _ _ _ Htoken Hbad).
    eexists _, (reqs ++ [link_request headers token]). repeat split.
    + simpl. rewrite app_assoc. reflexivity.
    + rewrite length_app. simpl. lia.
Qed.

(** X9: the members exporter returns the pages fetched before a bad status. *)
Lemma members_partial_on_bad_status (E : env) (url : string)
    (headers : list (string * string)) (pages : list (list pyval)) (fuel : nat)
    (w : world) :
  (List.length pages < fuel)%nat ->
  serves E (cursor_request url headers) cursor_page (sent w) PyNone pages
    (fun hist token => exists status, bad_status E (cursor_request url headers) status hist token) ->
  returns_after (MembersExport.fetch_members_loop E fuel url headers [] PyNone w)
    (List.concat pages) w (S (List.length pages)).
Proof.
  intros Hfuel Hserves.
  destruct (members_pages E url headers _ _ _ _ Hserves) as (token & reqs & Hfail & Hn & Hrun).
  replace fuel with (List.length pages + S (fuel - S (List.length pages)))%nat by lia.
  rewrite Hrun. simpl app.
  destruct Hfail as [status Hbad].
  destruct (members_bad_status E url headers (fuel - S (List.length pages))
              (List.concat pages) token
              (with_stdout (with_sent w reqs) (repeat next_page_line (List.length pages)))
              status Hbad) as [line ->].
  eexists _, (reqs ++ [cursor_request url headers token]). repeat split.
  - simpl. rewrite app_assoc. reflexivity.
  - rewrite length_app. simpl. lia.
Qed.

(** It raises when a body does not parse: the pages fetched so far are
    not returned. *)
Lemma members_raises_on_bad_body (E : env) (url : string)
    (headers : list (string * string)) (pages : list (list pyval)) (fuel : nat)
    (w : world) :
  (List.length pages < fuel)%nat ->
  serves E (cursor_request url headers) cursor_page (sent w) PyNone pages
    (bad_body E (cursor_request url headers)) ->
  raises_after (MembersExport.fetch_members_loop E fuel url headers [] PyNone w)
    JSONDecodeError w (S (List.length pages)).
Proof.
  intros Hfuel Hserves.
  destruct (members_pages E url headers _ _ _ _ Hserves) as (token & reqs & Hfail & Hn & Hrun).
  replace fuel with (List.length pages + S (fuel - S (List.length pages)))%nat by lia.
  rewrite Hrun.
  rewrite (members_bad_body E url headers _ _ token
             (with_stdout (with_sent w reqs) (repeat next_page_line (List.length pages))))
    by exact Hfail.
  eexists _, (reqs ++ [cursor_request url headers token]). repeat split.
  - simpl. rewrite app_assoc. reflexivity.
  - rewrite length_app. simpl. lia.
Qed.

(** X7: the monitor raises on a 4xx or 5xx status and on a body that does not
    parse: no records reach its caller. *)
Lemma monitor_raises_on_failure (E : env) (url : string)
    (headers : list (string * string)) (pages : list (list pyval)) (fuel : nat)
    (w : world) :
  (List.length pages < fuel)%nat ->
  serves E (cursor_request url headers) cursor_page (sent w) PyNone pages
    (fun hist token =>
       (exists status, error_status E (cursor_request url headers) status hist token) \/
       unparseable E (cursor_request url headers) hist token) ->
  exists e,
    raises_after (LicenseMonitor.fetch_members_loop E fuel url headers [] PyNone w)
      e w (S (List.length pages)).
Proof.
  intros Hfuel Hserves.
  destruct (monitor_pages E url headers _ _ _ _ Hserves) as (token & reqs & Hfail & Hn & Hrun).
  replace fuel with (List.length pages + S (fuel - S (List.length pages)))%nat by lia.
  rewrite Hrun.
  assert (Hsent : sent (with_sent w reqs) = sent w ++ reqs) by reflexivity.
  rewrite <- Hsent in Hfail.
  destruct Hfail as [[status Hbad] | Hbad].
  - exists (HTTPError status).
    rewrite (monitor_error_status E url headers _ _ _ _ status Hbad).
    eexists _, (reqs ++ [cursor_request url headers token]). repeat split.
    + simpl. rewrite app_assoc. reflexivity.
    + rewrite length_app. simpl. lia.
  - exists JSONDecodeError.
    rewrite (monitor_unparseable E url headers _ _ _ _ Hbad).
    eexists _, (reqs ++ [cursor_request url headers token]). repeat split.
    + simpl. rewrite app_assoc. reflexivity.
    + rewrite length_app. simpl. lia.
Qed.

(** ** A cycle of tokens *)

Section Cycles.

Variable E : env.
Variable ask : pyval -> request.
Variable read : pyval -> option page.

Lemma next_token_answers (token t : pyval) :
  stateless E ->
  next_token E ask read token = Some t ->
  forall hist, exists records, answers E ask read hist token records (Some t).
Proof.
  intros Hpure Hnext hist. unfold next_token in Hnext.
  destruct (server E [] (ask token)) as [r|] eqn:Hsrv; [|discriminate].
  destruct (status_code r =? 200) eqn:Hst; [|discriminate].
  destruct (json r) as [body|] eqn:Hjson; [|discriminate].
  destruct (read body) as [[records next]|] eqn:Hread; [|discriminate].
  subst next. exists records, r, body. rewrite (Hpure hist []).
  apply Z.eqb_eq in Hst. auto.
Qed.

Lemma token_at_add (a b : nat) (token : pyval) :
  token_at E ask read (a + b) token =
  match token_at E ask read a token with
  | Some t => token_at E ask read b t
  | None => None
  end.
Proof.
  revert token. induction a as [|a IH]; intros token; [reflexivity|].
  simpl. destruct (next_token E ask read token); [apply IH | reflexivity].
Qed.

Lemma token_cycle_forever (start : pyval) (j k : nat) :
  token_cycle E ask read start j k ->
  forall n, token_at E ask read n start <> None.
Proof.
  intros [[Hj Hjk] (t & Hat_j & Hat_k)] n.
  induction n as [n IH] using lt_wf_ind.
  destruct (Nat.le_gt_cases n k) as [Hle | Hgt].
  - intros Hnone.
    replace k with (n + (k - n))%nat in Hat_k by lia.
    rewrite token_at_add, Hnone in Hat_k. discriminate.
  - replace n with (k + (n - k))%nat by lia.
    rewrite token_at_add, Hat_k.
    assert (Hback := token_at_add j (n - k) start). rewrite Hat_j in Hback.
    rewrite <- Hback. apply IH. lia.
Qed.

End Cycles.

Lemma monitor_loop_forever (E : env) (url : string) (headers : list (string * string)) :
  stateless E ->
  forall (fuel : nat) (acc : list pyval) (token : pyval) (w : world),
    (forall n, token_at E (cursor_request url headers) cursor_page n token <> None) ->
    exists reqs,
      LicenseMonitor.fetch_members_loop E fuel url headers acc token w =
        OutOfFuel (with_sent w reqs) /\
      List.length reqs = fuel.
Proof.
  intros Hpure. induction fuel as [|fuel IH]; intros acc token w Hall.
  - exists []. rewrite with_sent_nil. split; reflexivity.
  - assert (H1 := Hall 1%nat). simpl in H1.
    destruct (next_token E (cursor_request url headers) cursor_page token) as [t|] eqn:Hnext;
      [|congruence].
    destruct (next_token_answers E _ _ token t Hpure Hnext (sent w)) as [records Hpage].
    rewrite (monitor_page E url headers fuel acc token w records t Hpage).
    destruct (IH (acc ++ records) t (with_sent w [cursor_request url headers token]))
      as (reqs & Hrun & Hlen).
    { intros n. specialize (Hall (S n)). simpl in Hall. rewrite Hnext in Hall. exact Hall. }
    exists (cursor_request url headers token :: reqs).
    rewrite Hrun, with_sent_sent. split; [reflexivity | simpl; congruence].
Qed.

Lemma monitor_cycle_diverges (E : env) (api_token org_id : string) (j k : nat) (w : world) :
  stateless E ->
  token_cycle E
    (cursor_request (LicenseMonitor.members_url org_id)
       (LicenseMonitor.auth_headers api_token))
    cursor_page PyNone j k ->
  forall fuel, exists reqs,
    LicenseMonitor.fetch_members E fuel api_token org_id w = OutOfFuel (with_sent w reqs) /\
    List.length reqs = fuel.
Proof.
  intros Hpure Hcycle fuel.
  destruct (monitor_loop_forever E _ _ Hpure fuel [] PyNone w
              (token_cycle_forever E _ _ PyNone j k Hcycle)) as (reqs & Hrun & Hlen).
  exists reqs. split; assumption.
Qed.

(** C5, as the code has it: there is no cycle guard.  When the token of
    page [k] repeats the token of an earlier page (the server answering by
    the request alone), [fetch_members] never fails and never returns:
    after any number of iterations it is still fetching, one request per
    iteration. *)
Theorem token_cycle_never_ends (E : env) (api_token org_id : string) (j k : nat)
    (w : world) :
  stateless E ->
  token_cycle E
    (cursor_request (LicenseMonitor.members_url org_id)
       (LicenseMonitor.auth_headers api_token))
    cursor_page PyNone j k ->
  diverges (fun fuel => LicenseMonitor.fetch_members E fuel api_token org_id w) /\
  ~ fails (fun fuel => LicenseMonitor.fetch_members E fuel api_token org_id w) /\
  forall fuel,
    List.length (sent (final_world (LicenseMonitor.fetch_members E fuel api_token org_id w)))
    = (List.length (sent w) + fuel)%nat.
Proof.
  intros Hpure Hcycle.
  assert (Hrun := monitor_cycle_diverges E api_token org_id j k w Hpure Hcycle).
  repeat split.
  - intros fuel. destruct (Hrun fuel) as (reqs & -> & _). eauto.
  - intros (fuel & e & w' & Hraised).
    destruct (Hrun fuel) as (reqs & Heq & _). congruence.
  - intros fuel. destruct (Hrun fuel) as (reqs & -> & Hlen).
    simpl. rewrite length_app. lia.
Qed.

Lemma looping_env_cycle :
  stateless looping_env /\
  token_cycle looping_env
    (cursor_request (LicenseMonitor.members_url "org") (LicenseMonitor.auth_headers "token"))
    cursor_page PyNone 1 2.
Proof.
  split; [intros hist hist' req; reflexivity|].
  split; [lia|]. exists (PyStr "again"). split; reflexivity.
Defined.

Lemma token_cycle_never_ends_witness :
  diverges (fun fuel => LicenseMonitor.fetch_members looping_env fuel "token" "org" (fresh [])) /\
  ~ fails (fun fuel => LicenseMonitor.fetch_members looping_env fuel "token" "org" (fresh [])).
Proof.
  destruct (token_cycle_never_ends looping_env "token" "org" 1 2 (fresh [])
              (proj1 looping_env_cycle) (proj2 looping_env_cycle)) as (Hd & Hf & _).
  split; assumption.
Defined.

(** On that server, whose page 2 repeats the token of page 1, the fetch
    does not end with an error: it does not end at all. *)
Lemma token_cycle_no_protocol_error :
  token_cycle looping_env
    (cursor_request (LicenseMonitor.members_url "org") (LicenseMonitor.auth_headers "token"))
    cursor_page PyNone 1 2 /\
  ~ fails (fun fuel => LicenseMonitor.fetch_members looping_env fuel "token" "org" (fresh [])) /\
  LicenseMonitor.fetch_members looping_env 25 "token" "org" (fresh []) =
    OutOfFuel
      (with_sent (fresh [])
         (cursor_request (LicenseMonitor.members_url "org")
            (LicenseMonitor.auth_headers "token") PyNone ::
          repeat (cursor_request (LicenseMonitor.members_url "org")
                    (LicenseMonitor.auth_headers "token") (PyStr "again")) 24)).
Proof.
  split; [exact (proj2 looping_env_cycle)|]. split; [|vm_compute; reflexivity].
  intros (fuel & e & w' & Hraised).
  destruct (monitor_cycle_diverges looping_env "token" "org" 1 2 (fresh [])
              (proj1 looping_env_cycle) (proj2 looping_env_cycle) fuel) as (reqs & Heq & _).
  congruence.
Qed.

(** ** The monitor's report *)

Lemma licensed_users_pure (members : list pyval) (w : world) :
  (exists kept, LicenseMonitor.licensed_users members w = Returned kept w) \/
  (exists e, LicenseMonitor.licensed_users members w = Raised e w).
Proof.
  induction members as [|member rest IH]; [left; exists []; reflexivity|].
  cbn [LicenseMonitor.licensed_users]. run.
  destruct member; run; try (right; eexists; reflexivity).
  destruct (truthy (dict_get_default fields "active" PyNone)); run;
    destruct IH as [[kept ->] | [e ->]]; eauto.
Qed.

Lemma cursor_params_ok_get (req : request) :
  cursor_params_ok req = true -> is_get req = true.
Proof. destruct req; [reflexivity | discriminate]. Qed.

Lemma filter_post_gets (gets : list request) (post : request) :
  Forall (fun req => cursor_params_ok req = true) gets ->
  is_post post = true ->
  filter is_post (gets ++ [post]) = [post].
Proof.
  intros Hgets Hpost. induction Hgets as [|req gets Hreq _ IH].
  - simpl. rewrite Hpost. reflexivity.
  - simpl. unfold is_post at 1. rewrite (cursor_params_ok_get _ Hreq). exact IH.
Qed.

(** C8: a run of the monitor that returns has posted exactly one message
    to the webhook, after its fetches; the message is the report for the
    number of licensed users found, within the limit or over it. *)
Theorem monitor_posts_once (E : env) (fuel : nat) (w w' : world) :
  LicenseMonitor.main E fuel w = Returned tt w' ->
  exists gets used webhook,
    environ E "SLACK_WEBHOOK_URL" = Some webhook /\
    sent w' =
      sent w ++ gets ++
      [Post webhook (PyDict [("text", PyStr (render (decide used LicenseMonitor.total_licenses)))])] /\
    filter is_post
      (gets ++
       [Post webhook (PyDict [("text", PyStr (render (decide used LicenseMonitor.total_licenses)))])])
    = [Post webhook (PyDict [("text", PyStr (render (decide used LicenseMonitor.total_licenses)))])].
Proof.
  unfold LicenseMonitor.main.
  destruct (environ E "SLACK_WEBHOOK_URL") as [webhook|] eqn:Hhook;
    [|rewrite !orb_true_r; discriminate].
  destruct (negb (env_truthy (environ E "MIRO_API_TOKEN")) ||
            negb (env_truthy (environ E "MIRO_ORG_ID")) ||
            negb (env_truthy (Some webhook))); [discriminate|].
  unfold bind at 1.
  destruct (monitor_loop_sends E
              (LicenseMonitor.members_url (env_text (environ E "MIRO_ORG_ID")))
              (LicenseMonitor.auth_headers (env_text (environ E "MIRO_API_TOKEN")))
              fuel [] PyNone w) as (gets & (Hsent & Hgets & _) & _).
  unfold LicenseMonitor.fetch_members.
  destruct (LicenseMonitor.fetch_members_loop E fuel _ _ [] PyNone w)
    as [members w1| |]; try discriminate.
  simpl in Hsent. unfold bind at 1.
  destruct (licensed_users_pure members w1) as [[kept ->] | [e ->]]; [|discriminate].
  unfold LicenseMonitor.post_to_slack. run. rewrite alert_message_decide.
  destruct (server E (sent w1) _) as [r|]; [|discriminate].
  destruct ((400 <=? status_code r) && (status_code r <? 600)); [discriminate|].
  intros Hret. inversion Hret; subst w'; clear Hret. simpl.
  exists gets, (Z.of_nat (List.length kept)), webhook.
  split; [reflexivity|]. split.
  - rewrite Hsent, <- app_assoc. reflexivity.
  - apply filter_post_gets; [exact Hgets | reflexivity].
Qed.

(** X3: when the fetch returns member records and the webhook accepts the
    post, the monitor's run returns, the report sent. *)
Lemma monitor_run_succeeds (E : env) (fuel : nat) (w w1 : world) (members : list pyval)
    (api_token org_id webhook : string) (r : response) :
  environ E "MIRO_API_TOKEN" = Some api_token -> str_truthy api_token = true ->
  environ E "MIRO_ORG_ID" = Some org_id -> str_truthy org_id = true ->
  environ E "SLACK_WEBHOOK_URL" = Some webhook -> str_truthy webhook = true ->
  LicenseMonitor.fetch_members E fuel api_token org_id w = Returned members w1 ->
  forallb is_member_record members = true ->
  server E (sent w1)
    (Post webhook
       (PyDict [("text",
                 PyStr (render (decide (Z.of_nat (List.length (filter is_licensed members)))
                                  LicenseMonitor.total_licenses)))]))
    = Responded r ->
  ~ (400 <= status_code r < 600) ->
  LicenseMonitor.main E fuel w =
  Returned tt
    (with_sent w1
       [Post webhook
          (PyDict [("text",
                    PyStr (render (decide (Z.of_nat (List.length (filter is_licensed members)))
                                     LicenseMonitor.total_licenses)))])]).
Proof.
  intros Htok Htok' Horg Horg' Hhook Hhook' Hfetch Hrec Hsrv Hstatus.
  unfold LicenseMonitor.main. rewrite Htok, Horg, Hhook. unfold env_truthy, env_text.
  rewrite Htok', Horg', Hhook'. cbn [negb orb].
  unfold bind at 1. rewrite Hfetch.
  unfold bind at 1. rewrite (proj1 (licensed_users_filter_aux members w1 Hrec)).
  unfold LicenseMonitor.post_to_slack. run. rewrite alert_message_decide, Hsrv.
  replace ((400 <=? status_code r) && (status_code r <? 600)) with false; [reflexivity|].
  symmetry. apply andb_false_iff.
  destruct (Z.leb_spec 400 (status_code r)); [right | left; reflexivity].
  apply Z.ltb_ge. lia.
Qed.

Lemma monitor_posts_once_witness :
  exists gets used webhook,
    environ demo_env "SLACK_WEBHOOK_URL" = Some webhook /\
    sent demo_report_world =
      sent (fresh []) ++ gets ++
      [Post webhook (PyDict [("text", PyStr (render (decide used LicenseMonitor.total_licenses)))])] /\
    filter is_post
      (gets ++
       [Post webhook (PyDict [("text", PyStr (render (decide used LicenseMonitor.total_licenses)))])])
    = [Post webhook (PyDict [("text", PyStr (render (decide used LicenseMonitor.total_licenses)))])].
Proof.
  apply (monitor_posts_once demo_env 3 (fresh []) demo_report_world).
  vm_compute. reflexivity.
Defined.

(** Two of the four demo members are licensed: the report is within limit. *)
Example monitor_reports_within_limit :
  exists w',
    LicenseMonitor.main demo_env 3 (fresh []) = Returned tt w' /\
    filter is_post (sent w') =
      [Post "https://hooks.slack.com/services/T/B/X"
         (PyDict [("text", PyStr (render (WithinLimit 2 600 598)))])].
Proof. eexists. split; vm_compute; reflexivity. Qed.

(** 601 licensed members: the alert is sent, once. *)
Example monitor_reports_overage :
  exists w',
    LicenseMonitor.main crowded_env 1 (fresh []) = Returned tt w' /\
    filter is_post (sent w') =
      [Post "https://hooks.slack.com/services/T/B/X"
         (PyDict [("text", PyStr (render (Overage 601 600 1)))])].
Proof. eexists. split; vm_compute; reflexivity. Qed.

(** ** Tabular export *)

Lemma filter_twice {A} (f : A -> bool) (l : list A) :
  filter f (filter f l) = filter f l.
Proof.
  induction l as [|a l IH]; [reflexivity|]. simpl.
  destruct (f a) eqn:Hf; simpl; [rewrite Hf, IH|]; auto.
Qed.

Lemma file_rows_set (name : string) (rows : csv_rows) (files : list (string * csv_rows)) :
  file_rows name (file_set name rows files) = rows.
Proof. unfold file_rows, file_set. simpl. rewrite String.eqb_refl. reflexivity. Qed.

Lemma file_set_set (name : string) (rows rows' : csv_rows)
    (files : list (string * csv_rows)) :
  file_set name rows' (file_set name rows files) = file_set name rows' files.
Proof.
  unfold file_set. simpl. rewrite String.eqb_refl. simpl. rewrite filter_twice. reflexivity.
Qed.

Lemma writerow_file (E : env) (name : string) (row : list pyval) (rows : csv_rows)
    (w : world) :
  writerow E name row (with_file w name rows) =
  Returned tt (with_file w name (rows ++ [map (csv_field E) row])).
Proof.
  unfold writerow, with_file. simpl. rewrite file_rows_set, file_set_set. reflexivity.
Qed.

Lemma board_row_cells (E : env) (board : pyval) (w : world) :
  is_board_record board = true ->
  exists row, BoardsExport.board_row board w = Returned row w /\
              map (csv_field E) row = board_cells E board.
Proof.
  destruct board as [| | | | |fields]; try discriminate. simpl. intros Hrec.
  unfold BoardsExport.board_row. run. unfold owner_name, field, dict_get_default.
  destruct (dict_get fields "owner") as [[| | | | |owner]|]; try discriminate;
    run; eexists; split; reflexivity.
Qed.

Lemma write_boards_rows (E : env) (name : string) (boards : list pyval) :
  forallb is_board_record boards = true ->
  forall (rows : csv_rows) (w : world),
    BoardsExport.write_boards E name boards (with_file w name rows) =
    Returned tt (with_file w name (rows ++ map (board_cells E) boards)).
Proof.
  induction boards as [|board rest IH]; intros Hrec rows w.
  - simpl. rewrite app_nil_r. reflexivity.
  - simpl in Hrec. apply andb_true_iff in Hrec. destruct Hrec as [Hboard Hrest].
    cbn [BoardsExport.write_boards]. unfold bind.
    destruct (board_row_cells E board (with_file w name rows) Hboard) as (row & -> & Hcells).
    rewrite writerow_file, Hcells, (IH Hrest), <- app_assoc. reflexivity.
Qed.

Lemma boards_export_rows (E : env) (boards : list pyval) (name : string) (w : world) :
  forallb is_board_record boards = true ->
  BoardsExport.export_to_csv E boards name w =
  Returned tt
    (with_file w name (map (csv_field E) BoardsExport.header :: map (board_cells E) boards)).
Proof.
  intros Hrec. unfold BoardsExport.export_to_csv, bind.
  change (open_w name w) with (Returned tt (with_file w name [])). cbv beta iota.
  rewrite writerow_file, (write_boards_rows E name boards Hrec). reflexivity.
Qed.

Lemma member_row_cells (E : env) (member : pyval) (w : world) :
  is_export_member member = true ->
  exists rowdict,
    MembersExport.member_row E member w = Returned rowdict w /\
    exists row,
      dict_to_list MembersExport.fieldnames rowdict w = Returned row w /\
      map (csv_field E) row = member_cells E member.
Proof.
  destruct member as [| | | | |fields]; try discriminate. simpl. intros Hrec.
  unfold MembersExport.member_row, py_iter. run.
  unfold admin_roles_text, field, field_or, dict_get_default.
  destruct (dict_get fields "adminRoles") as [[| | | |roles|]|]; try discriminate;
    (eexists; split; [reflexivity|]; eexists; split; [reflexivity|]);
    cbn [map csv_field dict_get String.eqb Ascii.eqb Bool.eqb];
    destruct (dict_get fields "lastActivityAt"), (dict_get fields "licenseAssignedAt");
    reflexivity.
Qed.

Lemma write_members_rows (E : env) (name : string) (members : list pyval) :
  forallb is_export_member members = true ->
  forall (rows : csv_rows) (w : world),
    MembersExport.write_members E name members (with_file w name rows) =
    Returned tt (with_file w name (rows ++ map (member_cells E) members)).
Proof.
  induction members as [|member rest IH]; intros Hrec rows w.
  - simpl. rewrite app_nil_r. reflexivity.
  - simpl in Hrec. apply andb_true_iff in Hrec. destruct Hrec as [Hmember Hrest].
    cbn [MembersExport.write_members]. unfold bind at 1.
    destruct (member_row_cells E member (with_file w name rows) Hmember)
      as (rowdict & -> & row & Hrow & Hcells).
    unfold dict_writerow, bind. rewrite Hrow, writerow_file, Hcells, (IH Hrest), <- app_assoc.
    reflexivity.
Qed.

Lemma members_export_rows (E : env) (members : list pyval) (name : string) (w : world) :
  forallb is_export_member members = true ->
  exists w',
    MembersExport.export_to_csv E members name w = Returned tt w' /\
    sent w' = sent w /\
    file_rows name (written w') =
      MembersExport.fieldnames :: map (member_cells E) members.
Proof.
  intros Hrec. unfold MembersExport.export_to_csv, bind at 1. unfold print at 1.
  set (w1 := {| sent := sent w; stdout := _; stdin := stdin w; written := written w |}).
  cbv beta iota.
  unfold bind at 1. change (open_w name w1) with (Returned tt (with_file w1 name [])).
  cbv beta iota.
  unfold bind at 1, dict_writeheader, dict_writerow. unfold bind at 1.
  change (dict_to_list MembersExport.fieldnames
            (map (fun f => (f, PyStr f)) MembersExport.fieldnames) (with_file w1 name []))
    with (Returned (map PyStr MembersExport.fieldnames) (with_file w1 name [])).
  cbv beta iota. rewrite writerow_file. unfold bind at 1.
  rewrite (write_members_rows E name members Hrec).
  eexists. split; [reflexivity|]. split; [reflexivity|].
  simpl. rewrite file_rows_set. reflexivity.
Qed.

(** C7: over board records and member records, each exporter writes its
    header and then exactly one row per record, the fields in the fixed
    column order; a board without owner gets an empty owner field. *)
Theorem exports_one_row_per_record (E : env) (boards members : list pyval)
    (name : string) (w : world) :
  forallb is_board_record boards = true ->
  forallb is_export_member members = true ->
  (exists w' rows,
     BoardsExport.export_to_csv E boards name w = Returned tt w' /\
     file_rows name (written w') =
       ["Board ID"; "Name"; "Owner"; "Created At"; "Modified At"; "Link"] :: rows /\
     rows = map (board_cells E) boards /\
     List.length rows = List.length boards) /\
  (forall fields,
     dict_get fields "owner" = None ->
     board_cells E (PyDict fields) =
       [csv_field E (field fields "id"); csv_field E (field fields "name"); "";
        csv_field E (field fields "createdAt"); csv_field E (field fields "modifiedAt");
        csv_field E (field fields "viewLink")]) /\
  (exists w' rows,
     MembersExport.export_to_csv E members name w = Returned tt w' /\
     file_rows name (written w') =
       ["id"; "active"; "adminRoles"; "email"; "lastActivityAt"; "license";
        "licenseAssignedAt"; "role"; "type"] :: rows /\
     rows = map (member_cells E) members /\
     List.length rows = List.length members).
Proof.
  intros Hboards Hmembers. split; [|split].
  - eexists _, _. rewrite (boards_export_rows E boards name w Hboards).
    split; [reflexivity|]. simpl. rewrite file_rows_set.
    split; [reflexivity|]. split; [reflexivity | apply length_map].
  - intros fields Howner. unfold board_cells, owner_name. rewrite Howner. reflexivity.
  - destruct (members_export_rows E members name w Hmembers) as (w' & Hrun & _ & Hrows).
    exists w', (map (member_cells E) members).
    split; [exact Hrun|]. split; [exact Hrows|]. split; [reflexivity | apply length_map].
Qed.

Lemma exports_one_row_per_record_witness :
  (exists w',
     BoardsExport.export_to_csv demo_env demo_boards "miro_boards_export.csv" (fresh [])
       = Returned tt w' /\
     file_rows "miro_boards_export.csv" (written w') =
       [["Board ID"; "Name"; "Owner"; "Created At"; "Modified At"; "Link"];
        ["b1"; "Roadmap"; "Ada"; "2024-01-01T00:00:00Z"; "2024-02-01T00:00:00Z";
         "https://miro.com/app/board/b1"];
        ["b2"; "Orphan"; ""; ""; ""; ""]]) /\
  (exists w',
     MembersExport.export_to_csv demo_env [PyDict quiet_member] "miro_users_export.csv"
       (fresh []) = Returned tt w' /\
     file_rows "miro_users_export.csv" (written w') =
       [["id"; "active"; "adminRoles"; "email"; "lastActivityAt"; "license";
         "licenseAssignedAt"; "role"; "type"];
        ["m1"; "True"; "content_admin, user_admin"; "ada@example.com"; ""; "full"; "N/A";
         "organization_internal_admin"; "organization-member"]]).
Proof.
  destruct (exports_one_row_per_record demo_env demo_boards [PyDict quiet_member]
              "miro_boards_export.csv" (fresh []) eq_refl eq_refl)
    as ((w1 & rows1 & Hrun1 & Hrows1 & -> & _) & _ & _).
  destruct (exports_one_row_per_record demo_env demo_boards [PyDict quiet_member]
              "miro_users_export.csv" (fresh []) eq_refl eq_refl)
    as (_ & _ & (w2 & rows2 & Hrun2 & Hrows2 & -> & _)).
  split; [exists w1 | exists w2]; split; assumption.
Defined.

(** C10: in the member export the ["N/A"] text stands only for an absent
    key; a key that is present is written as its value, and a present
    [None] is written as the empty field. *)
Theorem na_default_only_when_absent (E : env) (fields : list (string * pyval))
    (name : string) (w : world) :
  is_export_member (PyDict fields) = true ->
  exists w' row,
    MembersExport.export_to_csv E [PyDict fields] name w = Returned tt w' /\
    file_rows name (written w') = [MembersExport.fieldnames; row] /\
    nth 4 row "" = match dict_get fields "lastActivityAt" with
                   | None => "N/A"
                   | Some v => csv_field E v
                   end /\
    nth 6 row "" = match dict_get fields "licenseAssignedAt" with
                   | None => "N/A"
                   | Some v => csv_field E v
                   end /\
    csv_field E PyNone = "" /\ csv_field E PyNone <> "N/A".
Proof.
  intros Hrec.
  destruct (members_export_rows E [PyDict fields] name w) as (w' & Hrun & _ & Hrows).
  { cbn [forallb]. rewrite Hrec. reflexivity. }
  exists w', (member_cells E (PyDict fields)).
  split; [exact Hrun|]. split; [exact Hrows|].
  unfold member_cells, field_or. cbn [nth].
  destruct (dict_get fields "lastActivityAt"), (dict_get fields "licenseAssignedAt");
    repeat split; try reflexivity; discriminate.
Qed.

Lemma na_default_only_when_absent_witness :
  exists w' row,
    MembersExport.export_to_csv demo_env [PyDict quiet_member] "miro_users_export.csv"
      (fresh []) = Returned tt w' /\
    file_rows "miro_users_export.csv" (written w') = [MembersExport.fieldnames; row] /\
    nth 4 row "" = "" /\
    nth 6 row "" = "N/A" /\
    csv_field demo_env PyNone = "" /\ csv_field demo_env PyNone <> "N/A".
Proof.
  exact (na_default_only_when_absent demo_env quiet_member "miro_users_export.csv"
           (fresh []) eq_refl).
Defined.

Lemma cursor_tokens_witness :
  LicenseMonitor.fetch_members_loop empty_cursor_env 10 "u" [] [] PyNone (fresh []) =
    Returned three_members (with_sent (fresh []) [Get (PyStr "u") [] []]) /\
  MembersExport.fetch_members_loop empty_cursor_env 10 "u" [] [] PyNone (fresh []) =
    Returned three_members (with_sent (fresh []) [Get (PyStr "u") [] []]).
Proof.
  exact (proj1 (proj2 (cursor_tokens empty_cursor_env "u" []))
           9%nat [] PyNone (fresh [])
           (mkResponse 200 "" (Some (PyDict [("data", PyList three_members);
                                             ("cursor", PyStr "")])))
           [("data", PyList three_members); ("cursor", PyStr "")]
           three_members eq_refl eq_refl eq_refl eq_refl eq_refl).
Defined.

(** ** Failures and missing inputs *)

(** C4, where the code departs from it: on a second page whose body does
    not parse, the members exporter's [fetch_members] raises and the first
    page is lost, while the boards exporter returns the first page. *)
Theorem members_export_raises_on_garbled_page :
  raises_after (MembersExport.fetch_members garbled_env 5 "token" (fresh ["org"]))
    JSONDecodeError (fresh ["org"]) 2 /\
  returns_after (BoardsExport.fetch_boards garbled_env 5 "token" (fresh []))
    (nth 0 demo_pages []) (fresh []) 2.
Proof.
  split; eexists _, _; repeat split; lazy; reflexivity.
Qed.

(** On the same server the monitor raises as well, nothing returned. *)
Example monitor_raises_on_garbled_page :
  raises_after (LicenseMonitor.fetch_members garbled_env 5 "token" "org" (fresh []))
    JSONDecodeError (fresh []) 2.
Proof. eexists _, _; repeat split; lazy; reflexivity. Qed.

(** X1: the monitor checks its three settings before anything else: a missing
    or empty one raises, nothing sent. *)
Lemma monitor_requires_settings (E : env) (fuel : nat) (w : world) :
  env_truthy (environ E "MIRO_API_TOKEN") = false \/
  env_truthy (environ E "MIRO_ORG_ID") = false \/
  env_truthy (environ E "SLACK_WEBHOOK_URL") = false ->
  exists msg, LicenseMonitor.main E fuel w = Raised (ValueError msg) w.
Proof.
  intros H. unfold LicenseMonitor.main. eexists.
  replace (negb (env_truthy (environ E "MIRO_API_TOKEN")) ||
           negb (env_truthy (environ E "MIRO_ORG_ID")) ||
           negb (env_truthy (environ E "SLACK_WEBHOOK_URL"))) with true; [reflexivity|].
  destruct H as [-> | [-> | ->]]; simpl; rewrite ?orb_true_r; reflexivity.
Qed.


(** The organisation id read by the members exporter is not checked: the
    first request goes out whatever was typed. *)
Lemma members_export_org_id_unchecked (E : env) (fuel : nat) (api_token line : string)
    (rest : list string) (w : world) :
  stdin w = line :: rest ->
  exists more,
    sent (final_world (MembersExport.fetch_members E (S fuel) api_token w)) =
    sent w ++
    Get (PyStr (MembersExport.url_format (strip line)))
      (MembersExport.auth_headers api_token) [] :: more.
Proof.
  intros Hin. unfold MembersExport.fetch_members, bind, input, print. rewrite Hin.
  cbv beta iota zeta.
  match goal with
  | |- context [MembersExport.fetch_members_loop E (S fuel) ?u ?h [] PyNone ?w2] =>
      destruct (members_loop_sends E u h (S fuel) [] PyNone w2)
        as (reqs & (Hsent & _ & _) & Hfirst);
      destruct Hfirst as [more ->]; [discriminate|]; exists more;
      destruct (MembersExport.fetch_members_loop E (S fuel) u h [] PyNone w2)
  end; exact Hsent.
Qed.

(** C6, where the code departs from it: the members exporter, given a
    token file and an empty answer to the organisation id prompt, sends
    its requests all the same, to a path with no organisation in it. *)
Theorem members_export_fetches_without_org_id :
  exists w',
    MembersExport.main demo_env 3 (fresh ["token.txt"; ""]) = Returned tt w' /\
    sent w' =
      [Get (PyStr "https://api.miro.com/v2/orgs//members")
         [("Authorization", "Bearer token"); ("Accept", "application/json")] [];
       Get (PyStr "https://api.miro.com/v2/orgs//members")
         [("Authorization", "Bearer token"); ("Accept", "application/json")]
         [("cursor", PyStr "https://api.miro.com/v2/boards?page=2")];
       Get (PyStr "https://api.miro.com/v2/orgs//members")
         [("Authorization", "Bearer token"); ("Accept", "application/json")]
         [("cursor", PyStr "https://api.miro.com/v2/boards?page=3")]].
Proof.
  eexists. split; vm_compute; reflexivity.
Qed.

(** ** Further runs of the lemmas above *)

Lemma monitor_requires_settings_witness :
  exists msg, LicenseMonitor.main no_org_env 3 (fresh []) = Raised (ValueError msg) (fresh []).
Proof.
  apply monitor_requires_settings. right; left. reflexivity.
Defined.


Lemma monitor_run_succeeds_witness :
  LicenseMonitor.main demo_env 3 (fresh []) = Returned tt demo_report_world.
Proof.
  refine (monitor_run_succeeds demo_env 3 (fresh [])
            (final_world (LicenseMonitor.fetch_members demo_env 3 "token" "org" (fresh [])))
            (List.concat demo_pages) "token" "org" "https://hooks.slack.com/services/T/B/X"
            (mkResponse 200 "" (Some (PyDict [])))
            eq_refl eq_refl eq_refl eq_refl eq_refl eq_refl eq_refl eq_refl eq_refl _).
  simpl. lia.
Defined.

Lemma boards_partial_on_failure_witness :
  returns_after
    (BoardsExport.fetch_boards_loop garbled_env 5 (BoardsExport.auth_headers "token")
       BoardsExport.limit_params [] (PyStr BoardsExport.boards_url) (fresh []))
    (nth 0 demo_pages []) (fresh []) 2.
Proof.
  apply (boards_partial_on_failure garbled_env (BoardsExport.auth_headers "token")
           [nth 0 demo_pages []] 5 (PyStr BoardsExport.boards_url) (fresh []));
    [simpl; lia | reflexivity |].
  simpl. eexists. split; [eexists _, _; repeat split; reflexivity|].
  right. eexists. repeat split; reflexivity.
Defined.

Lemma members_partial_on_bad_status_witness :
  returns_after
    (MembersExport.fetch_members_loop failing_env 5 (MembersExport.url_format "org")
       (MembersExport.auth_headers "token") [] PyNone (fresh []))
    (nth 0 demo_pages []) (fresh []) 2.
Proof.
  apply (members_partial_on_bad_status failing_env (MembersExport.url_format "org")
           (MembersExport.auth_headers "token") [nth 0 demo_pages []] 5 (fresh []));
    [simpl; lia |].
  simpl. eexists. split; [eexists _, _; repeat split; reflexivity|].
  exists 500. eexists. repeat split; try reflexivity. discriminate.
Defined.

Lemma monitor_raises_on_failure_witness :
  exists e,
    raises_after
      (LicenseMonitor.fetch_members_loop failing_env 5 (LicenseMonitor.members_url "org")
         (LicenseMonitor.auth_headers "token") [] PyNone (fresh []))
      e (fresh []) 2.
Proof.
  apply (monitor_raises_on_failure failing_env (LicenseMonitor.members_url "org")
           (LicenseMonitor.auth_headers "token") [nth 0 demo_pages []] 5 (fresh []));
    [simpl; lia |].
  simpl. eexists. split; [eexists _, _; repeat split; reflexivity|].
  left. exists 500. eexists. repeat split; try reflexivity; lia.
Defined.



(** ** The filter, outside the data model *)

Lemma licensed_users_run (members : list pyval) (w : world) :
  LicenseMonitor.licensed_users members w =
  if forallb is_record members
  then Returned (filter counts_as_licensed members) w
  else Raised AttributeError w.
Proof.
  induction members as [|member rest IH]; [reflexivity|].
  cbn [LicenseMonitor.licensed_users forallb filter]. run.
  destruct member as [| | | | |fields]; try reflexivity.
  run. cbn [is_record andb counts_as_licensed]. unfold field.
  destruct (truthy (dict_get_default fields "active" PyNone)); run; rewrite IH;
    destruct (forallb is_record rest); try reflexivity.
Qed.

(** X6: over any members the comprehension keeps the mappings whose [active]
    is truthy and whose [license] is ["full"], in their order; a member
    that is no mapping makes it raise. *)
Theorem licensed_users_by_truth_value (members : list pyval) (w : world) :
  LicenseMonitor.licensed_users members w =
  if forallb is_record members
  then Returned (filter counts_as_licensed members) w
  else Raised AttributeError w.
Proof. apply licensed_users_run. Qed.

(** ** Delivery and failure in the monitor *)

(** X4: when the webhook answers the post with a 4xx or 5xx status, the run
    raises that status after the one post: the failure is not swallowed. *)
Theorem monitor_delivery_failure (E : env) (fuel : nat) (w w1 : world)
    (members : list pyval) (api_token org_id webhook : string) (r : response) :
  environ E "MIRO_API_TOKEN" = Some api_token -> str_truthy api_token = true ->
  environ E "MIRO_ORG_ID" = Some org_id -> str_truthy org_id = true ->
  environ E "SLACK_WEBHOOK_URL" = Some webhook -> str_truthy webhook = true ->
  LicenseMonitor.fetch_members E fuel api_token org_id w = Returned members w1 ->
  forallb is_record members = true ->
  server E (sent w1)
    (Post webhook
       (PyDict [("text",
                 PyStr (LicenseMonitor.alert_message
                          (Z.of_nat (List.length (filter counts_as_licensed members)))
                          LicenseMonitor.total_licenses))]))
    = Responded r ->
  400 <= status_code r < 600 ->
  LicenseMonitor.main E fuel w =
  Raised (HTTPError (status_code r))
    (with_sent w1
       [Post webhook
          (PyDict [("text",
                    PyStr (LicenseMonitor.alert_message
                             (Z.of_nat (List.length (filter counts_as_licensed members)))
                             LicenseMonitor.total_licenses))])]).
Proof.
  intros Htok Htok' Horg Horg' Hhook Hhook' Hfetch Hrec Hsrv Hstatus.
  unfold LicenseMonitor.main. rewrite Htok, Horg, Hhook. unfold env_truthy, env_text.
  rewrite Htok', Horg', Hhook'. cbn [negb orb].
  unfold bind at 1. rewrite Hfetch.
  unfold bind at 1. rewrite licensed_users_run, Hrec.
  unfold LicenseMonitor.post_to_slack. run. rewrite Hsrv.
  replace ((400 <=? status_code r) && (status_code r <? 600)) with true; [reflexivity|].
  symmetry. apply andb_true_iff. split; [apply Z.leb_le | apply Z.ltb_lt]; lia.
Qed.

Lemma monitor_delivery_failure_witness :
  exists w',
    LicenseMonitor.main rejecting_env 1 (fresh []) = Raised (HTTPError 404) w' /\
    filter is_post (sent w') =
      [Post "https://hooks.slack.com/services/T/B/X"
         (PyDict [("text", PyStr (render (WithinLimit 1 600 599)))])].
Proof.
  eexists. split.
  - refine (monitor_delivery_failure rejecting_env 1 (fresh [])
              (final_world (LicenseMonitor.fetch_members rejecting_env 1 "token" "org" (fresh [])))
              three_members "token" "org" "https://hooks.slack.com/services/T/B/X"
              (mkResponse 404 "no_service" None)
              eq_refl eq_refl eq_refl eq_refl eq_refl eq_refl eq_refl eq_refl eq_refl _).
    simpl. lia.
  - reflexivity.
Defined.

(** X5: when the fetch raises, the run raises the same error where the fetch
    stopped, and nothing was posted. *)
Theorem monitor_fetch_failure_propagates (E : env) (fuel : nat) (w w1 : world)
    (api_token org_id webhook : string) (e : exn) :
  environ E "MIRO_API_TOKEN" = Some api_token -> str_truthy api_token = true ->
  environ E "MIRO_ORG_ID" = Some org_id -> str_truthy org_id = true ->
  environ E "SLACK_WEBHOOK_URL" = Some webhook -> str_truthy webhook = true ->
  LicenseMonitor.fetch_members E fuel api_token org_id w = Raised e w1 ->
  LicenseMonitor.main E fuel w = Raised e w1 /\
  exists gets, sent w1 = sent w ++ gets /\ filter is_post gets = [].
Proof.
  intros Htok Htok' Horg Horg' Hhook Hhook' Hfetch. split.
  - unfold LicenseMonitor.main. rewrite Htok, Horg, Hhook. unfold env_truthy, env_text.
    rewrite Htok', Horg', Hhook'. cbn [negb orb].
    unfold bind at 1. rewrite Hfetch. reflexivity.
  - destruct (monitor_loop_sends E (LicenseMonitor.members_url org_id)
                (LicenseMonitor.auth_headers api_token) fuel [] PyNone w)
      as (gets & (Hsent & Hgets & _) & _).
    unfold LicenseMonitor.fetch_members in Hfetch. rewrite Hfetch in Hsent.
    exists gets. split; [exact Hsent|].
    clear Hsent. induction Hgets as [|req gets Hreq _ IH]; [reflexivity|].
    simpl. unfold is_post at 1. rewrite (cursor_params_ok_get _ Hreq). exact IH.
Qed.

Lemma monitor_fetch_failure_propagates_witness :
  exists w1,
    LicenseMonitor.main failing_env 5 (fresh []) = Raised (HTTPError 500) w1 /\
    exists gets, sent w1 = sent (fresh []) ++ gets /\ filter is_post gets = [].
Proof.
  eexists.
  refine (monitor_fetch_failure_propagates failing_env 5 (fresh []) _ "token" "org"
            "https://hooks.slack.com/services/T/B/X" (HTTPError 500)
            eq_refl eq_refl eq_refl eq_refl eq_refl eq_refl _).
  lazy. reflexivity.
Defined.

(** ** Requests and ends of the boards fetcher *)

(** X11: whatever the server does, every request of the boards loop is a GET of
    a truthy URL with the same headers and the same parameters (the page
    limit goes with the next links too), one request per iteration at
    most. *)
Theorem boards_requests (E : env) (headers : list (string * string))
    (params : list (string * pyval)) :
  forall (fuel : nat) (acc : list pyval) (url : pyval) (w : world),
    exists reqs,
      sent (final_world (BoardsExport.fetch_boards_loop E fuel headers params acc url w))
        = sent w ++ reqs /\
      Forall (fun req => exists u, req = Get u headers params /\ truthy u = true) reqs /\
      (List.length reqs <= fuel)%nat.
Proof.
  induction fuel as [|fuel IH]; intros acc url w.
  - exists []. simpl. rewrite app_nil_r. auto.
  - cbn [BoardsExport.fetch_boards_loop].
    destruct (truthy url) eqn:Hurl; cbn [negb].
    2:{ exists []. simpl. rewrite app_nil_r. repeat split; auto. lia. }
    run.
    assert (Hok : exists u, Get url headers params = Get u headers params /\ truthy u = true)
      by eauto.
    set (req := Get url headers params) in *.
    set (w1 := {| sent := sent w ++ [req]; stdout := stdout w; stdin := stdin w;
                  written := written w |}).
    assert (Hw1 : sent w1 = sent w ++ [req]) by reflexivity.
    clearbody req w1.
    crack;
      try (exists [req]; simpl; rewrite ?Hw1;
           repeat split; [repeat constructor; exact Hok | lia]);
      match goal with
      | |- context [BoardsExport.fetch_boards_loop E fuel headers params ?a ?t ?w'] =>
          destruct (IH a t w') as (reqs & Hsent & Hall & Hlen);
          exists (req :: reqs); rewrite Hsent; simpl; rewrite ?Hw1, <- ?app_assoc;
          repeat split; [constructor; assumption | lia]
      end.
Qed.

(** X12: a page whose body has no ["links"], or links whose ["next"] is absent
    or falsy, ends the boards loop with that page, whatever fuel is left. *)
Theorem boards_falsy_next_ends (E : env) (headers : list (string * string))
    (fuel : nat) (acc : list pyval) (url : pyval) (w : world) (r : response)
    (fields : list (string * pyval)) (records : list pyval) :
  truthy url = true ->
  server E (sent w) (link_request headers url) = Responded r ->
  status_code r = 200 ->
  json r = Some (PyDict fields) ->
  dict_get_default fields "data" (PyList []) = PyList records ->
  ends_links (dict_get fields "links") = true ->
  BoardsExport.fetch_boards_loop E (S fuel) headers BoardsExport.limit_params acc url w =
  Returned (acc ++ records) (with_sent w [link_request headers url]).
Proof.
  intros Hurl Hsrv Hst Hjson Hdata Hend.
  apply boards_last_page; [exact Hurl|].
  exists r, (PyDict fields). repeat split; try assumption.
  unfold link_page. rewrite Hdata. unfold dict_get_default at 1.
  unfold ends_links in Hend.
  destruct (dict_get fields "links") as [[| | | | |links]|]; try discriminate.
  - unfold ends_pagination in Hend. unfold dict_get_default, token_of.
    destruct (dict_get links "next") as [v|]; [|reflexivity].
    destruct (truthy v); [discriminate | reflexivity].
  - reflexivity.
Qed.

Lemma boards_falsy_next_ends_witness :
  BoardsExport.fetch_boards linkless_env 7 "token" (fresh []) =
  Returned three_members
    (with_sent (fresh [])
       [link_request (BoardsExport.auth_headers "token") (PyStr BoardsExport.boards_url)]).
Proof.
  exact (boards_falsy_next_ends linkless_env (BoardsExport.auth_headers "token") 6 []
           (PyStr BoardsExport.boards_url) (fresh [])
           (mkResponse 200 ""
              (Some (PyDict [("data", PyList three_members);
                             ("links", PyDict [("self", PyStr "https://api.miro.com/v2/boards")])])))
           [("data", PyList three_members);
            ("links", PyDict [("self", PyStr "https://api.miro.com/v2/boards")])]
           three_members eq_refl eq_refl eq_refl eq_refl eq_refl eq_refl).
Defined.

(** ** Answers that are no page *)

(** X13: a body that parses to something other than a mapping makes each of
    the three loops raise [AttributeError] on its first use, in the
    exporters too: what they had fetched is not returned. *)
Theorem non_record_body_raises (E : env) (url : string) (headers : list (string * string))
    (fuel : nat) (acc : list pyval) (token link : pyval) (w : world) (r r' : response)
    (body body' : pyval) :
  server E (sent w) (cursor_request url headers token) = Responded r ->
  status_code r = 200 -> json r = Some body -> is_record body = false ->
  truthy link = true ->
  server E (sent w) (link_request headers link) = Responded r' ->
  status_code r' = 200 -> json r' = Some body' -> is_record body' = false ->
  LicenseMonitor.fetch_members_loop E (S fuel) url headers acc token w =
    Raised AttributeError (with_sent w [cursor_request url headers token]) /\
  MembersExport.fetch_members_loop E (S fuel) url headers acc token w =
    Raised AttributeError (with_sent w [cursor_request url headers token]) /\
  BoardsExport.fetch_boards_loop E (S fuel) headers BoardsExport.limit_params acc link w =
    Raised AttributeError (with_sent w [link_request headers link]).
Proof.
  intros Hsrv Hst Hjson Hbody Hlink Hsrv' Hst' Hjson' Hbody'.
  unfold cursor_request, link_request, BoardsExport.limit_params in *.
  repeat split.
  - cbn [LicenseMonitor.fetch_members_loop]. run. rewrite Hsrv, Hst. run. rewrite Hjson.
    destruct body; try discriminate; reflexivity.
  - cbn [MembersExport.fetch_members_loop]. run. rewrite Hsrv, Hst. run. rewrite Hjson.
    destruct body; try discriminate; reflexivity.
  - cbn [BoardsExport.fetch_boards_loop]. rewrite Hlink. run. rewrite Hsrv', Hst'. run.
    rewrite Hjson'. destruct body'; try discriminate; reflexivity.
Qed.

Lemma non_record_body_raises_witness :
  LicenseMonitor.fetch_members list_body_env 4 "token" "org" (fresh []) =
    Raised AttributeError
      (with_sent (fresh [])
         [cursor_request (LicenseMonitor.members_url "org")
            (LicenseMonitor.auth_headers "token") PyNone]).
Proof.
  exact (proj1 (non_record_body_raises list_body_env (LicenseMonitor.members_url "org")
                  (LicenseMonitor.auth_headers "token") 3 [] PyNone (PyStr "u") (fresh [])
                  (mkResponse 200 "" (Some (PyList three_members)))
                  (mkResponse 200 "" (Some (PyList three_members)))
                  (PyList three_members) (PyList three_members)
                  eq_refl eq_refl eq_refl eq_refl eq_refl eq_refl eq_refl eq_refl eq_refl)).
Defined.

(** X14: a request that fails in transport raises in each of the three loops:
    the exporters, which survive a bad status, do not catch it. *)
Theorem transport_failure_raises (E : env) (url : string) (headers : list (string * string))
    (fuel : nat) (acc : list pyval) (token link : pyval) (w : world) :
  server E (sent w) (cursor_request url headers token) = TransportError ->
  truthy link = true ->
  server E (sent w) (link_request headers link) = TransportError ->
  LicenseMonitor.fetch_members_loop E (S fuel) url headers acc token w =
    Raised RequestException (with_sent w [cursor_request url headers token]) /\
  MembersExport.fetch_members_loop E (S fuel) url headers acc token w =
    Raised RequestException (with_sent w [cursor_request url headers token]) /\
  BoardsExport.fetch_boards_loop E (S fuel) headers BoardsExport.limit_params acc link w =
    Raised RequestException (with_sent w [link_request headers link]).
Proof.
  intros Hsrv Hlink Hsrv'.
  unfold cursor_request, link_request, BoardsExport.limit_params in *.
  repeat split.
  - cbn [LicenseMonitor.fetch_members_loop]. run. rewrite Hsrv. reflexivity.
  - cbn [MembersExport.fetch_members_loop]. run. rewrite Hsrv. reflexivity.
  - cbn [BoardsExport.fetch_boards_loop]. rewrite Hlink. run. rewrite Hsrv'. reflexivity.
Qed.

Lemma transport_failure_raises_witness :
  BoardsExport.fetch_boards offline_env 4 "token" (fresh []) =
    Raised RequestException
      (with_sent (fresh [])
         [link_request (BoardsExport.auth_headers "token") (PyStr BoardsExport.boards_url)]).
Proof.
  exact (proj2 (proj2 (transport_failure_raises offline_env "u"
                         (BoardsExport.auth_headers "token") 3 [] PyNone
                         (PyStr BoardsExport.boards_url) (fresh [])
                         eq_refl eq_refl eq_refl))).
Defined.

(** ** Records the exporters cannot write *)

Lemma board_row_raises (board : pyval) (w : world) :
  is_board_record board = false ->
  BoardsExport.board_row board w = Raised AttributeError w.
Proof.
  destruct board as [| | | | |fields]; try reflexivity. simpl. intros Hrec.
  unfold BoardsExport.board_row. run. unfold dict_get_default.
  destruct (dict_get fields "owner") as [[| | | | |owner]|]; try discriminate; reflexivity.
Qed.

Lemma write_boards_stops (E : env) (name : string) (before after : list pyval)
    (board : pyval) :
  forallb is_board_record before = true ->
  is_board_record board = false ->
  forall (rows : csv_rows) (w : world),
    BoardsExport.write_boards E name (before ++ board :: after) (with_file w name rows) =
    Raised AttributeError (with_file w name (rows ++ map (board_cells E) before)).
Proof.
  intros Hbefore Hboard.
  induction before as [|b rest IH]; intros rows w.
  - cbn [app BoardsExport.write_boards map]. unfold bind.
    rewrite (board_row_raises board _ Hboard), app_nil_r. reflexivity.
  - simpl in Hbefore. apply andb_true_iff in Hbefore. destruct Hbefore as [Hb Hrest].
    cbn [app BoardsExport.write_boards map]. unfold bind.
    destruct (board_row_cells E b (with_file w name rows) Hb) as (row & -> & Hcells).
    rewrite writerow_file, Hcells, (IH Hrest), <- app_assoc. reflexivity.
Qed.

(** X16: a board that is no mapping, or whose [owner] is present but no
    mapping (a null owner, say), stops the export with [AttributeError];
    the file keeps the header and the rows of the boards before it. *)
Theorem boards_export_stops_at_bad_board (E : env) (before after : list pyval)
    (board : pyval) (name : string) (w : world) :
  forallb is_board_record before = true ->
  is_board_record board = false ->
  BoardsExport.export_to_csv E (before ++ board :: after) name w =
  Raised AttributeError
    (with_file w name (map (csv_field E) BoardsExport.header :: map (board_cells E) before)).
Proof.
  intros Hbefore Hboard. unfold BoardsExport.export_to_csv, bind.
  change (open_w name w) with (Returned tt (with_file w name [])). cbv beta iota.
  rewrite writerow_file, (write_boards_stops E name before after board Hbefore Hboard).
  reflexivity.
Qed.

Lemma boards_export_stops_at_bad_board_witness :
  BoardsExport.export_to_csv demo_env
    (demo_boards ++ [PyDict [("id", PyStr "b3"); ("owner", PyNone)]; PyDict [("id", PyStr "b4")]])
    "miro_boards_export.csv" (fresh []) =
  Raised AttributeError
    (with_file (fresh []) "miro_boards_export.csv"
       [["Board ID"; "Name"; "Owner"; "Created At"; "Modified At"; "Link"];
        ["b1"; "Roadmap"; "Ada"; "2024-01-01T00:00:00Z"; "2024-02-01T00:00:00Z";
         "https://miro.com/app/board/b1"];
        ["b2"; "Orphan"; ""; ""; ""; ""]]).
Proof.
  exact (boards_export_stops_at_bad_board demo_env demo_boards
           [PyDict [("id", PyStr "b4")]] (PyDict [("id", PyStr "b3"); ("owner", PyNone)])
           "miro_boards_export.csv" (fresh []) eq_refl eq_refl).
Defined.

Lemma member_row_raises (E : env) (fields : list (string * pyval)) (v : pyval) (w : world) :
  dict_get fields "adminRoles" = Some v ->
  not_iterable v = true ->
  MembersExport.member_row E (PyDict fields) w = Raised TypeError w.
Proof.
  intros Hroles Hv. unfold MembersExport.member_row, py_iter. run.
  unfold dict_get_default. rewrite Hroles.
  destruct v; try discriminate; reflexivity.
Qed.

Lemma write_members_stops (E : env) (name : string) (before after : list pyval)
    (fields : list (string * pyval)) (v : pyval) :
  forallb is_export_member before = true ->
  dict_get fields "adminRoles" = Some v ->
  not_iterable v = true ->
  forall (rows : csv_rows) (w : world),
    MembersExport.write_members E name (before ++ PyDict fields :: after)
      (with_file w name rows) =
    Raised TypeError (with_file w name (rows ++ map (member_cells E) before)).
Proof.
  intros Hbefore Hroles Hv.
  induction before as [|m rest IH]; intros rows w.
  - cbn [app MembersExport.write_members map]. unfold bind.
    rewrite (member_row_raises E fields v _ Hroles Hv), app_nil_r. reflexivity.
  - simpl in Hbefore. apply andb_true_iff in Hbefore. destruct Hbefore as [Hm Hrest].
    cbn [app MembersExport.write_members map]. unfold bind at 1.
    destruct (member_row_cells E m (with_file w name rows) Hm)
      as (rowdict & -> & row & Hrow & Hcells).
    unfold dict_writerow, bind. rewrite Hrow, writerow_file, Hcells.
    specialize (IH Hrest (rows ++ [member_cells E m]) w). unfold bind in IH.
    rewrite IH, <- app_assoc. reflexivity.
Qed.

(** X17: a member whose [adminRoles] is present but cannot be iterated (null,
    a boolean, a number) stops the export with [TypeError]; the file keeps
    the header and the rows of the members before it, and the closing
    line is not printed. *)
Theorem members_export_stops_at_bad_roles (E : env) (before after : list pyval)
    (fields : list (string * pyval)) (v : pyval) (name : string) (w : world) :
  forallb is_export_member before = true ->
  dict_get fields "adminRoles" = Some v ->
  not_iterable v = true ->
  MembersExport.export_to_csv E (before ++ PyDict fields :: after) name w =
  Raised TypeError
    (with_file (with_stdout w [fstr ["Exporting data to "; name; "..."]]) name
       (MembersExport.fieldnames :: map (member_cells E) before)).
Proof.
  intros Hbefore Hroles Hv.
  unfold MembersExport.export_to_csv, bind at 1. unfold print at 1. cbv beta iota.
  change {| sent := sent w; stdout := stdout w ++ [fstr ["Exporting data to "; name; "..."]];
            stdin := stdin w; written := written w |}
    with (with_stdout w [fstr ["Exporting data to "; name; "..."]]).
  set (w1 := with_stdout w _).
  unfold bind at 1. change (open_w name w1) with (Returned tt (with_file w1 name [])).
  cbv beta iota.
  unfold bind at 1, dict_writeheader, dict_writerow. unfold bind at 1.
  change (dict_to_list MembersExport.fieldnames
            (map (fun f => (f, PyStr f)) MembersExport.fieldnames) (with_file w1 name []))
    with (Returned (map PyStr MembersExport.fieldnames) (with_file w1 name [])).
  cbv beta iota. rewrite writerow_file. unfold bind at 1.
  rewrite (write_members_stops E name before after fields v Hbefore Hroles Hv).
  reflexivity.
Qed.

Lemma members_export_stops_at_bad_roles_witness :
  exists w',
    MembersExport.export_to_csv demo_env
      [PyDict quiet_member; PyDict [("id", PyStr "m2"); ("adminRoles", PyNone)]]
      "miro_users_export.csv" (fresh []) = Raised TypeError w' /\
    file_rows "miro_users_export.csv" (written w') =
      [["id"; "active"; "adminRoles"; "email"; "lastActivityAt"; "license";
        "licenseAssignedAt"; "role"; "type"];
       ["m1"; "True"; "content_admin, user_admin"; "ada@example.com"; ""; "full"; "N/A";
        "organization_internal_admin"; "organization-member"]].
Proof.
  eexists. split.
  - exact (members_export_stops_at_bad_roles demo_env [PyDict quiet_member] []
             [("id", PyStr "m2"); ("adminRoles", PyNone)] PyNone
             "miro_users_export.csv" (fresh []) eq_refl eq_refl eq_refl).
  - reflexivity.
Defined.

(** ** Whole runs of the exporters *)










(** ** A 200 answer that is no page *)

(** X15: a mapping with none of the keys the loops read (an error message sent
    with status 200, say) counts as an empty last page: each loop returns
    what it had, without a word. *)
Theorem keyless_body_ends_quietly (E : env) (url : string)
    (headers : list (string * string)) (fuel : nat) (acc : list pyval)
    (token link : pyval) (w : world) (r r' : response)
    (fields fields' : list (string * pyval)) :
  server E (sent w) (cursor_request url headers token) = Responded r ->
  status_code r = 200 -> json r = Some (PyDict fields) ->
  dict_get fields "data" = None -> dict_get fields "cursor" = None ->
  truthy link = true ->
  server E (sent w) (link_request headers link) = Responded r' ->
  status_code r' = 200 -> json r' = Some (PyDict fields') ->
  dict_get fields' "data" = None -> dict_get fields' "links" = None ->
  LicenseMonitor.fetch_members_loop E (S fuel) url headers acc token w =
    Returned acc (with_sent w [cursor_request url headers token]) /\
  MembersExport.fetch_members_loop E (S fuel) url headers acc token w =
    Returned acc (with_sent w [cursor_request url headers token]) /\
  BoardsExport.fetch_boards_loop E (S fuel) headers BoardsExport.limit_params acc link w =
    Returned acc (with_sent w [link_request headers link]).
Proof.
  intros Hsrv Hst Hjson Hdata Hcursor Hlink Hsrv' Hst' Hjson' Hdata' Hlinks.
  assert (Hpage : last_page E (cursor_request url headers) cursor_page [] (sent w) token).
  { exists r, (PyDict fields). repeat split; try assumption.
    unfold cursor_page, dict_get_default. rewrite Hdata, Hcursor. reflexivity. }
  assert (Hpage' : last_page E (link_request headers) link_page [] (sent w) link).
  { exists r', (PyDict fields'). repeat split; try assumption.
    unfold link_page, dict_get_default. rewrite Hdata', Hlinks. reflexivity. }
  rewrite <- (app_nil_r acc) at 2 4 6.
  split; [apply monitor_last_page; exact Hpage|].
  split; [apply members_last_page; exact Hpage|].
  apply boards_last_page; assumption.
Qed.

Lemma keyless_body_ends_quietly_witness :
  MembersExport.fetch_members_loop message_env 4 "u" [] three_members (PyStr "c")
    (fresh []) =
  Returned three_members (with_sent (fresh []) [cursor_request "u" [] (PyStr "c")]).
Proof.
  exact (proj1 (proj2 (keyless_body_ends_quietly message_env "u" [] 3 three_members
                         (PyStr "c") (PyStr "l") (fresh [])
                         (mkResponse 200 "" (Some (PyDict [("message", PyStr "rate limit exceeded")])))
                         (mkResponse 200 "" (Some (PyDict [("message", PyStr "rate limit exceeded")])))
                         [("message", PyStr "rate limit exceeded")]
                         [("message", PyStr "rate limit exceeded")]
                         eq_refl eq_refl eq_refl eq_refl eq_refl eq_refl
                         eq_refl eq_refl eq_refl eq_refl eq_refl))).
Defined.
